(** * nig-utils: the telco module (phone normalisation, provider lookup, LRU cache)

    A shallow embedding of [src/telco/index.ts], [src/telco/constants.ts] and
    [src/telco/cache.ts], with the properties stated about them.

    Conventions of the embedding
    - a JavaScript string is a [string], one [ascii] per code unit; the
      code only compares a code unit with ASCII literals (the class [\d],
      [+], [0], [2]), so every other code unit behaves like any character
      that is neither a digit nor a plus;
    - [number] arguments that count entries ([maxSize]) are integers in [Z]:
      a capacity that is not an integer is outside the embedding;
    - a generic key type comes with the test [k === undefined], since the
      cache reads [undefined] both as "no first key" and as a key;
    - a function that can [throw] returns a [Result], and a [try]/[catch] is
      a [match] on it;
    - a JavaScript [Map] is the list of its entries in insertion order (the
      order [Map.prototype.keys] iterates in), with pairwise distinct keys;
    - module-level mutable state (the [phoneInfoCache] singleton) is passed
      explicitly;
    - [Math.random] is an explicit source of draws. *)

From Stdlib Require Import String Ascii List Bool Arith ZArith Lia Sorting.Sorted.
Import ListNotations.

Open Scope string_scope.

(* ================================================================= *)
(** ** JavaScript string primitives *)

Module JS.

(** [s.slice(n)] for a non-negative [n]. *)
Fixpoint slice_from (n : nat) (s : string) : string :=
  match n, s with
  | O, _ => s
  | S _, EmptyString => EmptyString
  | S n', String _ s' => slice_from n' s'
  end.

(** [s.slice(0, n)]. *)
Fixpoint slice_to (n : nat) (s : string) : string :=
  match n, s with
  | O, _ => EmptyString
  | S _, EmptyString => EmptyString
  | S n', String c s' => String c (slice_to n' s')
  end.

(** [s[0]]: [undefined] on the empty string. *)
Definition char0 (s : string) : option ascii :=
  match s with
  | EmptyString => None
  | String c _ => Some c
  end.

(** [s[0] === c] for a one-character literal [c]. *)
Definition char_is (x : option ascii) (c : ascii) : bool :=
  match x with
  | Some d => (d =? c)%char
  | None => false
  end.

(** [s.startsWith(p)]. *)
Definition startsWith (p s : string) : bool := String.prefix p s.

(** The class [\d] (without the [u] flag: the ten ASCII digits). *)
Definition is_digit (c : ascii) : bool :=
  (("0" <=? c) && (c <=? "9"))%char.

(** Every character of [s] is in [\d]. *)
Fixpoint all_digits (s : string) : bool :=
  match s with
  | EmptyString => true
  | String c s' => is_digit c && all_digits s'
  end.

(** [n.toString()] for an integer [0 <= n <= 9]. *)
Definition digit_toString (n : nat) : string :=
  String (ascii_of_nat (48 + n)) EmptyString.

End JS.

(* ================================================================= *)
(** ** types.ts *)

Inductive TelcoProvider := MTN | GLO | AIRTEL | NINE_MOBILE.

Inductive PhoneFormat := local | international | e164.

Record TelcoPrefix := mkTelcoPrefix {
  provider : TelcoProvider;
  prefixes : list string;
  description : string
}.

Record PhoneInfo := mkPhoneInfo {
  original : string;
  normalized : string;
  telco : option TelcoProvider;
  isValid : bool;
  format : PhoneFormat;
  prefix : string;
  number : string
}.

Record PhoneParts := mkPhoneParts {
  parts_prefix : string;
  parts_telco : option TelcoProvider;
  parts_number : string
}.

(** [PhoneResult<string>]: [{success, data, error}]. *)
Record PhoneResult := mkPhoneResult {
  success : bool;
  data : option string;
  error : option string
}.

Definition TelcoProvider_eqb (a b : TelcoProvider) : bool :=
  match a, b with
  | MTN, MTN | GLO, GLO | AIRTEL, AIRTEL | NINE_MOBILE, NINE_MOBILE => true
  | _, _ => false
  end.

(* ================================================================= *)
(** ** Thrown errors *)

(** The six [throw] sites of [normalizePhone], each with the input it quotes
    in its message.  [EmptyOrNonStringInput] is the [TypeError]. *)
Inductive PhoneError :=
| EmptyOrNonStringInput
| InvalidLength (phone : string)
| InvalidCountryCode (phone : string)
| InvalidLocalNumber (phone : string)
| InvalidFormat (phone : string)
| InvalidNigerianNumber (phone : string).

(** [error.message]. *)
Definition message (e : PhoneError) : string :=
  match e with
  | EmptyOrNonStringInput => "Phone number must be a non-empty string"
  | InvalidLength p => "Invalid phone number length: " ++ p
  | InvalidCountryCode p => "Invalid country code: " ++ p
  | InvalidLocalNumber p => "Invalid local number: " ++ p
  | InvalidFormat p => "Invalid phone number format: " ++ p
  | InvalidNigerianNumber p => "Invalid Nigerian phone number: " ++ p
  end.

Inductive Result (A : Type) :=
| Ok (a : A)
| Throw (e : PhoneError).

Arguments Ok {A} a.
Arguments Throw {A} e.

Definition bind {A B} (c : Result A) (k : A -> Result B) : Result B :=
  match c with
  | Ok a => k a
  | Throw e => Throw e
  end.

Notation "x <- c ;; k" := (bind c (fun x => k))
  (at level 61, c at next level, right associativity).

Definition is_ok {A} (c : Result A) : bool :=
  match c with Ok _ => true | Throw _ => false end.

(* ================================================================= *)
(** ** constants.ts: PATTERNS *)

Module PATTERNS.

(** One character matches [[^\d+]]: it is neither a digit nor a plus. *)
Definition CLEANUP_matches (c : ascii) : bool :=
  negb (JS.is_digit c || (c =? "+")%char).

(** [s.replace(PATTERNS.CLEANUP, '')]: with the [g] flag every match, that
    is every single matching character, is replaced by the empty string. *)
Fixpoint replace_CLEANUP (s : string) : string :=
  match s with
  | EmptyString => EmptyString
  | String c s' =>
      if CLEANUP_matches c then replace_CLEANUP s'
      else String c (replace_CLEANUP s')
  end.

(** [/^<lit>\d{10}$/.test(s)] for a literal [lit] of [n] characters: the
    anchors make the match cover the whole string, so [s] is [lit]
    followed by exactly ten digits. *)
Definition literal_then_10_digits (lit : string) (s : string) : bool :=
  JS.startsWith lit s
  && (String.length (JS.slice_from (String.length lit) s) =? 10)%nat
  && JS.all_digits (JS.slice_from (String.length lit) s).

(** [/^\+234\d{10}$/.test(s)]. *)
Definition E164_VALIDATION (s : string) : bool :=
  literal_then_10_digits "+234" s.

(** [/^0\d{10}$/.test(s)]. *)
Definition LOCAL_VALIDATION (s : string) : bool :=
  literal_then_10_digits "0" s.

(** [/^\+234\d{10}$/.test(s)]. *)
Definition INTERNATIONAL_VALIDATION (s : string) : bool :=
  literal_then_10_digits "+234" s.

End PATTERNS.

(* ================================================================= *)
(** ** index.ts: normalizePhone and its wrappers *)

(** The first [switch] of [normalizePhone]: canonical form from the cleaned
    string, by its first character. *)
Definition canonicalize (phone cleaned : string) : Result string :=
  let firstChar := JS.char0 cleaned in
  if JS.char_is firstChar "+" then
    if JS.startsWith "+234" cleaned then Ok cleaned
    else Throw (InvalidCountryCode phone)
  else if JS.char_is firstChar "2" then
    if JS.startsWith "234" cleaned then Ok ("+" ++ cleaned)
    else Throw (InvalidCountryCode phone)
  else if JS.char_is firstChar "0" then
    if (String.length cleaned =? 11)%nat then Ok ("+234" ++ JS.slice_from 1 cleaned)
    else if (String.length cleaned =? 10)%nat then Throw (InvalidLocalNumber phone)
    else Throw (InvalidLength phone)
  else
    if (String.length cleaned =? 10)%nat then Ok ("+234" ++ cleaned)
    else Throw (InvalidFormat phone).

(** The second [switch]: rendering of the canonical form. *)
Definition convert (targetFormat : PhoneFormat) (normalized : string) : string :=
  match targetFormat with
  | local => "0" ++ JS.slice_from 4 normalized
  | international => normalized
  | e164 => normalized
  end.

Definition normalizePhone (phone : string) (format : option PhoneFormat)
  : Result string :=
  if (String.length phone =? 0)%nat then Throw EmptyOrNonStringInput else
  let cleaned := PATTERNS.replace_CLEANUP phone in
  if (String.length cleaned <? 10)%nat || (14 <? String.length cleaned)%nat
  then Throw (InvalidLength phone) else
  normalized <- canonicalize phone cleaned ;;
  if negb (PATTERNS.E164_VALIDATION normalized)
  then Throw (InvalidNigerianNumber phone) else
  let targetFormat := match format with Some f => f | None => e164 end in
  Ok (convert targetFormat normalized).

Definition safeNormalizePhone (phone : string) (format : option PhoneFormat)
  : PhoneResult :=
  match normalizePhone phone format with
  | Ok d => mkPhoneResult true (Some d) None
  | Throw e => mkPhoneResult false None (Some (message e))
  end.

Definition isValidNigerianNumber (phone : string) : bool :=
  if (String.length phone =? 0)%nat then false else
  match normalizePhone phone None with
  | Ok _ => true
  | Throw _ => false
  end.

Definition formatPhoneToInternational (phone : string) : Result string :=
  normalizePhone phone (Some international).

Definition formatPhoneToLocal (phone : string) : Result string :=
  normalizePhone phone (Some local).

Definition validatePhoneFormat (phone : string) (format : PhoneFormat) : bool :=
  let result := safeNormalizePhone phone (Some format) in
  if negb (success result) then false else
  let pattern :=
    match format with
    | local => PATTERNS.LOCAL_VALIDATION
    | international => PATTERNS.INTERNATIONAL_VALIDATION
    | e164 => PATTERNS.E164_VALIDATION
    end in
  match data result with
  | Some d => pattern d
  | None => false
  end.

(* ================================================================= *)
(** ** JavaScript [Map] *)

(** Keys compared by [SameValueZero]; on strings that is equality.
    [is_undefined k] is [k === undefined]: a key type may hold the value
    [undefined]; a string never is. *)
Class KeyEq (K : Type) := {
  keq : K -> K -> bool;
  keq_spec : forall a b, reflect (a = b) (keq a b);
  is_undefined : K -> bool
}.

#[export] Instance string_KeyEq : KeyEq string :=
  {| keq := String.eqb; keq_spec := String.eqb_spec;
     is_undefined := fun _ => false |}.

(** Keys of type [K | undefined]: [None] is [undefined]. *)
Definition option_keq {K : Type} `{KeyEq K} (a b : option K) : bool :=
  match a, b with
  | None, None => true
  | Some x, Some y => keq x y
  | _, _ => false
  end.

Definition option_keq_spec {K : Type} `{KeyEq K} (a b : option K) :
  reflect (a = b) (option_keq a b).
Proof.
  destruct a as [x|], b as [y|]; simpl; try (constructor; congruence).
  destruct (keq_spec x y); constructor; congruence.
Defined.

#[export] Instance option_KeyEq {K : Type} `{KeyEq K} : KeyEq (option K) :=
  {| keq := option_keq; keq_spec := option_keq_spec;
     is_undefined := fun k => match k with
                              | None => true
                              | Some x => is_undefined x
                              end |}.

Module JSMap.
Section Ops.
Context {K V : Type} `{KeyEq K}.

(** The entries, oldest insertion first. *)
Definition empty : list (K * V) := [].

Fixpoint get (key : K) (m : list (K * V)) : option V :=
  match m with
  | [] => None
  | (k, v) :: m' => if keq key k then Some v else get key m'
  end.

Fixpoint has (key : K) (m : list (K * V)) : bool :=
  match m with
  | [] => false
  | (k, _) :: m' => keq key k || has key m'
  end.

(** [m.set(key, value)]: a present key keeps its place in the iteration
    order and gets the new value; an absent key is appended. *)
Fixpoint set (key : K) (value : V) (m : list (K * V)) : list (K * V) :=
  match m with
  | [] => [(key, value)]
  | (k, v) :: m' =>
      if keq key k then (k, value) :: m' else (k, v) :: set key value m'
  end.

(** [m.delete(key)]: the entry of [key] goes, the others keep their order. *)
Definition delete (key : K) (m : list (K * V)) : list (K * V) :=
  filter (fun e => negb (keq key (fst e))) m.

Definition size (m : list (K * V)) : nat := List.length m.

(** [m.keys()]. *)
Definition keys (m : list (K * V)) : list K := map fst m.

(** [m.keys().next().value]: [undefined] on an empty map. *)
Definition first_key (m : list (K * V)) : option K :=
  match m with
  | [] => None
  | (k, _) :: _ => Some k
  end.

End Ops.
End JSMap.

(* ================================================================= *)
(** ** constants.ts: TELCO_DATA and PREFIX_MAP *)

Definition TELCO_DATA (p : TelcoProvider) : TelcoPrefix :=
  match p with
  | MTN =>
      mkTelcoPrefix MTN
        [ "0703"; "0704"; "0706"; "07025"; "07026";
          "0803"; "0806"; "0810"; "0813"; "0814"; "0816";
          "0903"; "0906"; "0913"; "0916" ]
        "MTN Nigeria"
  | GLO =>
      mkTelcoPrefix GLO
        [ "0705"; "0805"; "0807"; "0811"; "0815"; "0905"; "0915" ]
        "Globacom Nigeria"
  | AIRTEL =>
      mkTelcoPrefix AIRTEL
        [ "0701"; "0708"; "0802"; "0808"; "0812"; "0901"; "0902"; "0907"; "0912" ]
        "Airtel Nigeria"
  | NINE_MOBILE =>
      mkTelcoPrefix NINE_MOBILE
        [ "0809"; "0817"; "0818"; "0908"; "0909" ]
        "9mobile Nigeria"
  end.

(** [Object.keys(TELCO_DATA)], in the order the object literal declares
    them (none of the four keys is an array index). *)
Definition getAllTelcos : list TelcoProvider := [MTN; GLO; AIRTEL; NINE_MOBILE].

Definition getTelcoInfo (provider : TelcoProvider) : TelcoPrefix :=
  TELCO_DATA provider.

(** The initialisation loop: for each provider, for each of its prefixes,
    [PREFIX_MAP.set(prefix, provider)]. *)
Definition PREFIX_MAP : list (string * TelcoProvider) :=
  fold_left
    (fun m provider =>
       fold_left (fun m' prefix => JSMap.set prefix provider m')
                 (prefixes (TELCO_DATA provider)) m)
    getAllTelcos JSMap.empty.

Definition getTelcoByPrefix (prefix : string) : option TelcoProvider :=
  JSMap.get prefix PREFIX_MAP.

(* ================================================================= *)
(** ** index.ts: provider detection and splitting *)

Definition getTelco (phone : string) : option TelcoProvider :=
  match normalizePhone phone None with
  | Ok normalized =>
      let localFormat := "0" ++ JS.slice_from 4 normalized in
      let prefix5 := JS.slice_to 5 localFormat in
      if JSMap.has prefix5 PREFIX_MAP then JSMap.get prefix5 PREFIX_MAP
      else
        let prefix4 := JS.slice_to 4 localFormat in
        JSMap.get prefix4 PREFIX_MAP
  | Throw _ => None
  end.

Definition splitPhoneParts (phone : string) : Result PhoneParts :=
  normalized <- normalizePhone phone None ;;
  let localFormat := "0" ++ JS.slice_from 4 normalized in
  let prefix5 := JS.slice_to 5 localFormat in
  match JSMap.get prefix5 PREFIX_MAP with
  | Some telco5 => Ok (mkPhoneParts prefix5 (Some telco5) (JS.slice_from 4 normalized))
  | None =>
      let prefix4 := JS.slice_to 4 localFormat in
      let telco4 := JSMap.get prefix4 PREFIX_MAP in
      Ok (mkPhoneParts
            (match telco4 with Some _ => prefix4 | None => "" end)
            telco4
            (JS.slice_from 4 normalized))
  end.

Definition batchValidatePhones (phones : list string) : list bool :=
  map isValidNigerianNumber phones.

Definition batchGetTelcos (phones : list string) : list (option TelcoProvider) :=
  map getTelco phones.

(* ================================================================= *)
(** ** cache.ts: LRUCache *)

Module LRU.
Section Cache.
Context {K V : Type} `{KeyEq K}.

Record LRUCache := mk {
  cache : list (K * V);
  maxSize : Z
}.

Definition new (maxSize : Z) : LRUCache := mk JSMap.empty maxSize.

Definition get (key : K) (c : LRUCache) : option V * LRUCache :=
  if JSMap.has key (cache c) then
    match JSMap.get key (cache c) with
    | Some value =>
        (Some value,
         mk (JSMap.set key value (JSMap.delete key (cache c))) (maxSize c))
    | None => (None, c)
    end
  else (None, c).

Definition set (key : K) (value : V) (c : LRUCache) : LRUCache :=
  let m :=
    if JSMap.has key (cache c) then JSMap.delete key (cache c)
    else if (maxSize c <=? Z.of_nat (JSMap.size (cache c)))%Z then
      match JSMap.first_key (cache c) with
      | Some firstKey =>
          if is_undefined firstKey then cache c
          else JSMap.delete firstKey (cache c)
      | None => cache c
      end
    else cache c in
  mk (JSMap.set key value m) (maxSize c).

Definition clear (c : LRUCache) : LRUCache := mk JSMap.empty (maxSize c).

Definition size (c : LRUCache) : nat := JSMap.size (cache c).

Definition has (key : K) (c : LRUCache) : bool := JSMap.has key (cache c).

Definition delete (key : K) (c : LRUCache) : bool * LRUCache :=
  (JSMap.has key (cache c), mk (JSMap.delete key (cache c)) (maxSize c)).

(** The public operations, as requests made to one cache. *)
Inductive op :=
| Get (key : K)
| Set_ (key : K) (value : V)
| Has (key : K)
| Delete (key : K)
| Clear.

Definition step (c : LRUCache) (o : op) : LRUCache :=
  match o with
  | Get key => snd (get key c)
  | Set_ key value => set key value c
  | Has _ => c
  | Delete key => snd (delete key c)
  | Clear => clear c
  end.

(** A history lists the requests made so far, the latest first. *)
Fixpoint run (maxSize : Z) (history : list op) : LRUCache :=
  match history with
  | [] => new maxSize
  | o :: earlier => step (run maxSize earlier) o
  end.

(** [get] and [set] are the uses of a key that count for recency. *)
Definition uses (key : K) (o : op) : bool :=
  match o with
  | Get k => keq key k
  | Set_ k _ => keq key k
  | _ => false
  end.

(** Time of the last use of [key]: the position, counted from 1 at the
    first request, of the latest [get] or [set] of [key]; 0 if none. *)
Fixpoint last_use (key : K) (history : list op) : nat :=
  match history with
  | [] => 0
  | o :: earlier =>
      if uses key o then S (List.length earlier) else last_use key earlier
  end.

End Cache.
Arguments LRUCache K V : clear implicits.
Arguments op K V : clear implicits.
End LRU.

(** The module-level singleton [new LRUCache<string, PhoneInfo>(1000)]. *)
Definition phoneInfoCache : LRU.LRUCache string PhoneInfo := LRU.new 1000.

(* ================================================================= *)
(** ** index.ts: getPhoneInfo *)

(** The body of the [try] block. *)
Definition getPhoneInfo_try (phone : string) : Result PhoneInfo :=
  normalized <- normalizePhone phone None ;;
  let telco := getTelco phone in
  parts <- splitPhoneParts phone ;;
  let format :=
    if JS.char_is (JS.char0 phone) "+" then international
    else if JS.char_is (JS.char0 phone) "0" then local
    else e164 in
  Ok (mkPhoneInfo phone normalized telco true format
                  (parts_prefix parts) (parts_number parts)).

(** What [getPhoneInfo] computes when the cache has no entry. *)
Definition getPhoneInfo_fresh (phone : string) : PhoneInfo :=
  match getPhoneInfo_try phone with
  | Ok result => result
  | Throw _ => mkPhoneInfo phone "" None false e164 "" ""
  end.

(** [getPhoneInfo], with the state of [phoneInfoCache] before and after. *)
Definition getPhoneInfo (phone : string) (st : LRU.LRUCache string PhoneInfo)
  : PhoneInfo * LRU.LRUCache string PhoneInfo :=
  let (cached, st1) := LRU.get phone st in
  match cached with
  | Some info => (info, st1)
  | None =>
      let result := getPhoneInfo_fresh phone in
      (result, LRU.set phone result st1)
  end.

Definition clearCaches (st : LRU.LRUCache string PhoneInfo)
  : LRU.LRUCache string PhoneInfo :=
  LRU.clear st.

(** Calls that touch [phoneInfoCache]. *)
Inductive call :=
| CallGetPhoneInfo (phone : string)
| CallClearCaches.

Definition do_call (st : LRU.LRUCache string PhoneInfo) (c : call)
  : LRU.LRUCache string PhoneInfo :=
  match c with
  | CallGetPhoneInfo phone => snd (getPhoneInfo phone st)
  | CallClearCaches => clearCaches st
  end.

(** The cache after a sequence of calls (the latest first), starting from
    the freshly loaded module. *)
Fixpoint cache_after (calls : list call) : LRU.LRUCache string PhoneInfo :=
  match calls with
  | [] => phoneInfoCache
  | c :: earlier => do_call (cache_after earlier) c
  end.

(* ================================================================= *)
(** ** index.ts: generateRandomPhone *)

(** The outcomes of the successive [Math.random()] calls.  A call
    [Math.floor(Math.random() * n)] yields some integer in [0, n): the
    outcome at the head, reduced below [n]. *)
Definition RandomSource := nat -> nat.

Definition random_below (n : nat) (r : RandomSource) : nat * RandomSource :=
  (r 0 mod n, fun i => r (S i)).

(** [Array.from({length: n}, () => Math.floor(Math.random() * 10).toString()).join('')]. *)
Fixpoint random_digits (n : nat) (r : RandomSource) : string * RandomSource :=
  match n with
  | O => ("", r)
  | S n' =>
      let (d, r1) := random_below 10 r in
      let (ds, r2) := random_digits n' r1 in
      (JS.digit_toString d ++ ds, r2)
  end.

Definition generateRandomPhone (telco : option TelcoProvider) (r : RandomSource)
  : Result string * RandomSource :=
  let providers :=
    match telco with
    | Some t => [t]
    | None => [MTN; GLO; AIRTEL; NINE_MOBILE]
    end in
  let (i, r1) := random_below (List.length providers) r in
  let chosenProvider := nth i providers MTN in
  let prefixes := prefixes (getTelcoInfo chosenProvider) in
  let (j, r2) := random_below (List.length prefixes) r1 in
  let prefix := nth j prefixes "" in
  let digitsNeeded := 11 - String.length prefix in
  let (number, r3) := random_digits digitsNeeded r2 in
  (normalizePhone (prefix ++ number) None, r3).

(* ================================================================= *)
(** ** index.ts: type guards and batch wrappers *)

(** [s.replace(/^(?:234|0)/, '+234')]: without the [g] flag the first match
    is replaced; the anchor allows a match at the start only, [234] tried
    before [0]. *)
Definition replace_country_prefix (s : string) : string :=
  if JS.startsWith "234" s then "+234" ++ JS.slice_from 3 s
  else if JS.startsWith "0" s then "+234" ++ JS.slice_from 1 s
  else s.

Definition isValidatedPhone (phone : string) : bool :=
  PATTERNS.E164_VALIDATION
    (replace_country_prefix (PATTERNS.replace_CLEANUP phone)).

Definition isNormalizedPhone (phone : string) : bool :=
  PATTERNS.E164_VALIDATION phone.

Definition batchNormalizePhones (phones : list string) (format : option PhoneFormat)
  : list PhoneResult :=
  map (fun phone => safeNormalizePhone phone format) phones.

(* ================================================================= *)
(** ** constants.ts: validationSchemas *)

Module validationSchemas.

(** The class [[789]]. *)
Definition in_789 (c : ascii) : bool :=
  ((c =? "7") || (c =? "8") || (c =? "9"))%char.

(** The class [[01]]. *)
Definition in_01 (c : ascii) : bool :=
  ((c =? "0") || (c =? "1"))%char.

(** [[789][01]\d{8}$] against the whole of [s]. *)
Definition subscriber (s : string) : bool :=
  match s with
  | String a (String b r) =>
      in_789 a && in_01 b && (String.length r =? 8)%nat && JS.all_digits r
  | _ => false
  end.

(** [/^(\+234|234|0)?[789][01]\d{8}$/.test(s)]: one of the three heads, or
    none, followed by the subscriber part up to the end. *)
Definition phone_pattern (s : string) : bool :=
  existsb
    (fun head =>
       JS.startsWith head s && subscriber (JS.slice_from (String.length head) s))
    ["+234"; "234"; "0"; ""].

(** [/^0[789][01]\d{1,2}$/.test(s)]. *)
Definition prefix_pattern (s : string) : bool :=
  match s with
  | String z (String a (String b r)) =>
      (z =? "0")%char && in_789 a && in_01 b
      && ((String.length r =? 1)%nat || (String.length r =? 2)%nat)
      && JS.all_digits r
  | _ => false
  end.

End validationSchemas.

(* ================================================================= *)
(** ** Vocabulary of the properties *)

(** The characters the cleanup keeps. *)
Definition kept (c : ascii) : bool := JS.is_digit c || (c =? "+")%char.

(** [format ?? 'e164']. *)
Definition target (format : option PhoneFormat) : PhoneFormat :=
  match format with Some f => f | None => e164 end.

(** [l] is in strictly increasing order of [g]. *)
Definition increasing {A : Type} (g : A -> nat) (l : list A) : Prop :=
  StronglySorted (fun a b => g a < g b) l.

(** The map [set] writes into: the old one without [key], or without its
    first key (when that key is not [undefined]), or unchanged. *)
Definition set_target {K V : Type} `{KeyEq K}
    (key : K) (c : LRU.LRUCache K V) : list (K * V) :=
  if JSMap.has key (LRU.cache c) then JSMap.delete key (LRU.cache c)
  else if (LRU.maxSize c <=? Z.of_nat (JSMap.size (LRU.cache c)))%Z then
    match JSMap.first_key (LRU.cache c) with
    | Some firstKey =>
        if is_undefined firstKey then LRU.cache c
        else JSMap.delete firstKey (LRU.cache c)
    | None => LRU.cache c
    end
  else LRU.cache c.

(** Every entry of the cache is what [getPhoneInfo] computes for its key. *)
Definition consistent (st : LRU.LRUCache string PhoneInfo) : Prop :=
  forall k v, In (k, v) (LRU.cache st) -> v = getPhoneInfo_fresh k.

(** The two probes of [getTelco], on the ten digits of a canonical form. *)
Definition probe (d : string) : option TelcoProvider :=
  if JSMap.has (JS.slice_to 5 ("0" ++ d)) PREFIX_MAP
  then JSMap.get (JS.slice_to 5 ("0" ++ d)) PREFIX_MAP
  else JSMap.get (JS.slice_to 4 ("0" ++ d)) PREFIX_MAP.

(** The shapes of cleaned string that normalise to [+234] and the digits
    [d]. *)
Definition accepted_shape (cleaned d : string) : Prop :=
  cleaned = "+234" ++ d
  \/ cleaned = "234" ++ d
  \/ cleaned = "0" ++ d
  \/ (cleaned = d
      /\ JS.char_is (JS.char0 d) "0" = false
      /\ JS.char_is (JS.char0 d) "2" = false).

(* ================================================================= *)
(** * Properties *)

(** ** Scenarios *)

Example normalize_local : normalizePhone "08031234567" None = Ok "+2348031234567".
Proof. reflexivity. Qed.

Example normalize_spaced : normalizePhone "0803 123 4567" None = Ok "+2348031234567".
Proof. reflexivity. Qed.

Example normalize_dashed : normalizePhone "234-803-123-4567" None = Ok "+2348031234567".
Proof. reflexivity. Qed.

Example normalize_short : normalizePhone "123" None = Throw (InvalidLength "123").
Proof. reflexivity. Qed.

Example normalize_to_local : normalizePhone "+2348031234567" (Some local) = Ok "08031234567".
Proof. reflexivity. Qed.

Example getTelco_glo : getTelco "08051234567" = Some GLO.
Proof. reflexivity. Qed.

Example getTelco_5digit : getTelco "07025123456" = Some MTN.
Proof. reflexivity. Qed.

Example prefix_map_size : JSMap.size PREFIX_MAP = 36.
Proof. reflexivity. Qed.

(* ================================================================= *)
(** ** Strings *)

Section StringFacts.

Lemma length_app (s t : string) :
  String.length (s ++ t) = String.length s + String.length t.
Proof. induction s as [|c s IH]; simpl; [reflexivity | now rewrite IH]. Qed.

Lemma slice_from_app (s t : string) :
  JS.slice_from (String.length s) (s ++ t) = t.
Proof. induction s as [|c s IH]; simpl; auto. Qed.

Lemma startsWith_app (s t : string) : JS.startsWith s (s ++ t) = true.
Proof.
  unfold JS.startsWith.
  induction s as [|c s IH]; simpl.
  - now destruct t.
  - destruct (ascii_dec c c); [exact IH | congruence].
Qed.

Lemma startsWith_split (p s : string) :
  JS.startsWith p s = true -> s = p ++ JS.slice_from (String.length p) s.
Proof.
  unfold JS.startsWith.
  revert s; induction p as [|c p IH]; intros s Hp; simpl.
  - reflexivity.
  - destruct s as [|d s]; simpl in Hp; [discriminate|].
    destruct (ascii_dec c d) as [->|]; [|discriminate].
    f_equal. now apply IH.
Qed.

Lemma all_digits_app (s t : string) :
  JS.all_digits (s ++ t) = JS.all_digits s && JS.all_digits t.
Proof.
  induction s as [|c s IH]; simpl; [reflexivity|].
  now rewrite IH, andb_assoc.
Qed.

(** A digit is one of the ten characters 0..9. *)
Lemma is_digit_cases (c : ascii) :
  JS.is_digit c = true ->
  In c ["0"; "1"; "2"; "3"; "4"; "5"; "6"; "7"; "8"; "9"]%char.
Proof.
  destruct c as [[] [] [] [] [] [] [] []]; intros Hd;
    try discriminate Hd; simpl; tauto.
Qed.

Lemma is_digit_not_plus (c : ascii) :
  JS.is_digit c = true -> (c =? "+")%char = false.
Proof.
  intros Hd. apply is_digit_cases in Hd. simpl in Hd.
  repeat (destruct Hd as [<-|Hd]; [reflexivity|]). contradiction.
Qed.

Lemma digit_toString_digit (n : nat) :
  n < 10 -> JS.all_digits (JS.digit_toString n) = true.
Proof.
  intros Hn.
  do 10 (destruct n as [|n]; [reflexivity|]). lia.
Qed.

End StringFacts.

(* ================================================================= *)
(** ** The cleanup step *)

Section Cleanup.

Lemma replace_CLEANUP_filter (s : string) :
  list_ascii_of_string (PATTERNS.replace_CLEANUP s)
  = filter kept (list_ascii_of_string s).
Proof.
  induction s as [|c s IH]; simpl; [reflexivity|].
  unfold PATTERNS.CLEANUP_matches, kept in *.
  destruct (JS.is_digit c || (c =? "+")%char); simpl; now rewrite IH.
Qed.

Lemma replace_CLEANUP_app (s t : string) :
  PATTERNS.replace_CLEANUP (s ++ t)
  = PATTERNS.replace_CLEANUP s ++ PATTERNS.replace_CLEANUP t.
Proof.
  induction s as [|c s IH]; simpl; [reflexivity|].
  destruct (PATTERNS.CLEANUP_matches c); simpl; now rewrite IH.
Qed.

Lemma replace_CLEANUP_digits (s : string) :
  JS.all_digits s = true -> PATTERNS.replace_CLEANUP s = s.
Proof.
  induction s as [|c s IH]; simpl; [reflexivity|].
  intros [Hc Hs]%andb_prop.
  unfold PATTERNS.CLEANUP_matches. rewrite Hc. simpl. now rewrite IH.
Qed.

Lemma replace_CLEANUP_length (s : string) :
  String.length (PATTERNS.replace_CLEANUP s) <= String.length s.
Proof.
  induction s as [|c s IH]; simpl; [lia|].
  destruct (PATTERNS.CLEANUP_matches c); simpl; lia.
Qed.

End Cleanup.

(* ================================================================= *)
(** ** The validation patterns *)

Section Patterns.

Lemma literal_then_10_digits_intro (lit d : string) :
  String.length d = 10 -> JS.all_digits d = true ->
  PATTERNS.literal_then_10_digits lit (lit ++ d) = true.
Proof.
  intros Hl Hd. unfold PATTERNS.literal_then_10_digits.
  rewrite startsWith_app, slice_from_app, Hl, Hd. reflexivity.
Qed.

Lemma literal_then_10_digits_elim (lit s : string) :
  PATTERNS.literal_then_10_digits lit s = true ->
  exists d, s = lit ++ d /\ String.length d = 10 /\ JS.all_digits d = true.
Proof.
  unfold PATTERNS.literal_then_10_digits.
  intros [[Hp Hl]%andb_prop Hd]%andb_prop.
  exists (JS.slice_from (String.length lit) s).
  split; [now apply startsWith_split|].
  split; [now apply Nat.eqb_eq | exact Hd].
Qed.

End Patterns.

(* ================================================================= *)
(** ** normalizePhone *)

Section Normalize.

(** The requested format only decides the final rendering. *)
Lemma normalizePhone_format (phone : string) (format : option PhoneFormat) :
  normalizePhone phone format
  = (n <- normalizePhone phone None ;; Ok (convert (target format) n)).
Proof.
  unfold normalizePhone.
  destruct (String.length phone =? 0)%nat; [reflexivity|].
  destruct ((_ <? 10)%nat || _); [reflexivity|].
  destruct (canonicalize phone _) as [n|e]; simpl; [|reflexivity].
  destruct (negb _); reflexivity.
Qed.

(** A successful normalisation yields [+234] and ten digits. *)
Lemma normalizePhone_canonical (phone n : string) :
  normalizePhone phone None = Ok n ->
  exists d, n = "+234" ++ d /\ String.length d = 10 /\ JS.all_digits d = true.
Proof.
  unfold normalizePhone.
  destruct (String.length phone =? 0)%nat; [discriminate|].
  destruct ((_ <? 10)%nat || _); [discriminate|].
  destruct (canonicalize phone _) as [m|e]; simpl; [|discriminate].
  destruct (PATTERNS.E164_VALIDATION m) eqn:Hv; simpl; [|discriminate].
  intros [= <-]. exact (literal_then_10_digits_elim "+234" m Hv).
Qed.

Lemma canonicalize_zero (phone d : string) :
  canonicalize phone (String "0" d)
  = if (String.length d =? 10)%nat then Ok ("+234" ++ d)
    else if (String.length d =? 9)%nat then Throw (InvalidLocalNumber phone)
    else Throw (InvalidLength phone).
Proof. reflexivity. Qed.

Lemma canonicalize_plus (phone s : string) :
  canonicalize phone (String "+" s)
  = if JS.startsWith "234" s then Ok (String "+" s)
    else Throw (InvalidCountryCode phone).
Proof.
  unfold canonicalize, JS.startsWith. simpl.
  destruct (ascii_dec "+" "+"); [reflexivity | congruence].
Qed.

(** The checks after the first [switch], on a canonical form that is
    already well shaped. *)
Lemma normalizePhone_finish (phone cleaned d : string) :
  String.length phone <> 0 ->
  10 <= String.length cleaned <= 14 ->
  PATTERNS.replace_CLEANUP phone = cleaned ->
  canonicalize phone cleaned = Ok ("+234" ++ d) ->
  String.length d = 10 -> JS.all_digits d = true ->
  normalizePhone phone None = Ok ("+234" ++ d).
Proof.
  intros Hne Hlen Hc Hk Hl Hd. unfold normalizePhone.
  destruct (Nat.eqb_spec (String.length phone) 0) as [|_]; [contradiction|].
  rewrite Hc.
  destruct (Nat.ltb_spec (String.length cleaned) 10); [lia|].
  destruct (Nat.ltb_spec 14 (String.length cleaned)); [lia|].
  simpl orb. cbv iota. rewrite Hk. unfold bind, PATTERNS.E164_VALIDATION.
  rewrite (literal_then_10_digits_intro "+234" _ Hl Hd). reflexivity.
Qed.

(** Local input: [0] and ten digits. *)
Lemma normalizePhone_local_input (d : string) (format : option PhoneFormat) :
  String.length d = 10 -> JS.all_digits d = true ->
  normalizePhone (String "0" d) format
  = Ok (convert (target format) ("+234" ++ d)).
Proof.
  intros Hl Hd. rewrite normalizePhone_format.
  rewrite (normalizePhone_finish (String "0" d) (String "0" d) d);
    simpl String.length; try lia; auto.
  - simpl. unfold PATTERNS.CLEANUP_matches. simpl.
    now rewrite (replace_CLEANUP_digits _ Hd).
  - rewrite canonicalize_zero, Hl. reflexivity.
Qed.

(** Canonical input: [+234] and ten digits. *)
Lemma normalizePhone_canonical_input (d : string) (format : option PhoneFormat) :
  String.length d = 10 -> JS.all_digits d = true ->
  normalizePhone ("+234" ++ d) format
  = Ok (convert (target format) ("+234" ++ d)).
Proof.
  intros Hl Hd. rewrite normalizePhone_format.
  rewrite (normalizePhone_finish ("+234" ++ d) ("+234" ++ d) d);
    simpl String.length; try lia; auto.
  - change ("+234" ++ d) with (String "+" ("234" ++ d)).
    simpl. unfold PATTERNS.CLEANUP_matches. simpl.
    now rewrite (replace_CLEANUP_digits _ Hd).
  - change ("+234" ++ d) with (String "+" ("234" ++ d)).
    rewrite canonicalize_plus, startsWith_app. reflexivity.
Qed.

Lemma convert_local (d : string) : convert local ("+234" ++ d) = String "0" d.
Proof. reflexivity. Qed.

End Normalize.

(* ================================================================= *)
(** ** Local numbers *)

(** C1: for every string [x] made of [0] and exactly ten digits,
    [normalizePhone(x)] is [+234] followed by the same ten digits, and
    normalising that result to the [local] format gives [x] back. *)
Theorem normalizePhone_local_round_trip (d : string) :
  String.length d = 10 -> JS.all_digits d = true ->
  let x := "0" ++ d in
  normalizePhone x None = Ok ("+234" ++ d)
  /\ (n <- normalizePhone x None ;; normalizePhone n (Some local)) = Ok x.
Proof.
  intros Hl Hd x. subst x.
  change ("0" ++ d) with (String "0" d).
  rewrite (normalizePhone_local_input d None Hl Hd).
  split; [reflexivity|].
  unfold bind, target, convert.
  rewrite (normalizePhone_canonical_input d (Some local) Hl Hd).
  reflexivity.
Qed.

Lemma normalizePhone_local_round_trip_witness :
  normalizePhone "08031234567" None = Ok "+2348031234567"
  /\ (n <- normalizePhone "08031234567" None ;; normalizePhone n (Some local))
     = Ok "08031234567".
Proof.
  apply (normalizePhone_local_round_trip "8031234567"); reflexivity.
Defined.

(** C2, as stated, fails: a [+] after the first character is kept, so
    ['0803 123 4567+'] does not clean to the same string as
    ['08031234567']. *)
Lemma cleanup_keeps_trailing_plus :
  PATTERNS.replace_CLEANUP "0803 123 4567+" = "08031234567+"
  /\ PATTERNS.replace_CLEANUP "0803 123 4567+"
     <> PATTERNS.replace_CLEANUP "08031234567".
Proof. split; [reflexivity | discriminate]. Qed.

(** C2 (amended): the cleanup step removes exactly the characters that are
    neither a digit nor a [+], wherever they stand, and keeps the others in
    their order; a [+] is kept at every position, leading or not. *)
Theorem cleanup_removes_all_but_digits_and_plus :
  forall s : string,
    list_ascii_of_string (PATTERNS.replace_CLEANUP s)
    = filter (fun c => JS.is_digit c || (c =? "+")%char) (list_ascii_of_string s)
    /\ (forall c, In c (list_ascii_of_string (PATTERNS.replace_CLEANUP s)) ->
                  JS.is_digit c = true \/ c = "+"%char)
    /\ (forall s1 s2, s = s1 ++ "+" ++ s2 ->
          PATTERNS.replace_CLEANUP s
          = PATTERNS.replace_CLEANUP s1 ++ "+" ++ PATTERNS.replace_CLEANUP s2).
Proof.
  intros s. split; [|split].
  - apply replace_CLEANUP_filter.
  - intros c Hc. rewrite replace_CLEANUP_filter in Hc.
    apply filter_In in Hc as [_ Hk]. unfold kept in Hk.
    apply orb_prop in Hk as [Hk|Hk]; [now left | right].
    now apply Ascii.eqb_eq.
  - intros s1 s2 ->. now rewrite !replace_CLEANUP_app.
Qed.

Lemma cleanup_removes_all_but_digits_and_plus_witness :
  PATTERNS.replace_CLEANUP "0803 123+4567"
  = PATTERNS.replace_CLEANUP "0803 123" ++ "+" ++ PATTERNS.replace_CLEANUP "4567".
Proof.
  apply (proj2 (proj2 (cleanup_removes_all_but_digits_and_plus "0803 123+4567"))
           "0803 123" "4567").
  reflexivity.
Defined.

(* ================================================================= *)
(** ** Format validation *)

Section FormatValidation.

Lemma isValidNigerianNumber_is_ok (phone : string) :
  isValidNigerianNumber phone = is_ok (normalizePhone phone None).
Proof.
  unfold isValidNigerianNumber, normalizePhone.
  destruct (String.length phone =? 0)%nat; reflexivity.
Qed.

(** On a canonical form, each validation pattern accepts the rendering in
    its own format. *)
Lemma pattern_accepts_own_format (f : PhoneFormat) (d : string) :
  String.length d = 10 -> JS.all_digits d = true ->
  match f with
  | local => PATTERNS.LOCAL_VALIDATION
  | international => PATTERNS.INTERNATIONAL_VALIDATION
  | e164 => PATTERNS.E164_VALIDATION
  end (convert f ("+234" ++ d)) = true.
Proof.
  intros Hl Hd. destruct f.
  - exact (literal_then_10_digits_intro "0" d Hl Hd).
  - exact (literal_then_10_digits_intro "+234" d Hl Hd).
  - exact (literal_then_10_digits_intro "+234" d Hl Hd).
Qed.

Lemma validatePhoneFormat_is_ok (phone : string) (f : PhoneFormat) :
  validatePhoneFormat phone f = is_ok (normalizePhone phone None).
Proof.
  unfold validatePhoneFormat, safeNormalizePhone.
  rewrite normalizePhone_format.
  destruct (normalizePhone phone None) as [n|e] eqn:Hn; simpl; [|reflexivity].
  destruct (normalizePhone_canonical phone n Hn) as (d & -> & Hl & Hd).
  exact (pattern_accepts_own_format f d Hl Hd).
Qed.

End FormatValidation.

(** C10: for every input [p] and all formats [f1], [f2],
    [validatePhoneFormat(p, f1)], [validatePhoneFormat(p, f2)] and
    [isValidNigerianNumber(p)] are equal: the format argument has no effect
    on the result. *)
Theorem validatePhoneFormat_ignores_format :
  forall (p : string) (f1 f2 : PhoneFormat),
    validatePhoneFormat p f1 = validatePhoneFormat p f2
    /\ validatePhoneFormat p f2 = isValidNigerianNumber p.
Proof.
  intros p f1 f2.
  now rewrite !validatePhoneFormat_is_ok, isValidNigerianNumber_is_ok.
Qed.

(* ================================================================= *)
(** ** Provider detection and splitting *)

Section Providers.

Lemma startsWith_slice_to (p s : string) :
  JS.startsWith p s = true -> JS.slice_to (String.length p) s = p.
Proof.
  intros Hp. rewrite (startsWith_split p s Hp).
  generalize (JS.slice_from (String.length p) s) as r.
  clear Hp. induction p as [|c p IH]; intros r; simpl.
  - now destruct r.
  - f_equal. apply IH.
Qed.

(** The declared prefixes of five characters. *)
Lemma five_digit_prefixes (t : TelcoProvider) (p : string) :
  In p (prefixes (TELCO_DATA t)) -> String.length p = 5 ->
  t = MTN /\ (p = "07025" \/ p = "07026").
Proof.
  destruct t; simpl; intros Hin Hl;
    repeat (destruct Hin as [<-|Hin];
            [first [discriminate Hl | split; [reflexivity | tauto]]|]);
    contradiction.
Qed.

(** [getTelco] in terms of the two probes. *)
Lemma getTelco_probes (phone n : string) :
  normalizePhone phone None = Ok n ->
  getTelco phone =
    if JSMap.has (JS.slice_to 5 ("0" ++ JS.slice_from 4 n)) PREFIX_MAP
    then JSMap.get (JS.slice_to 5 ("0" ++ JS.slice_from 4 n)) PREFIX_MAP
    else JSMap.get (JS.slice_to 4 ("0" ++ JS.slice_from 4 n)) PREFIX_MAP.
Proof. intros Hn. unfold getTelco. now rewrite Hn. Qed.

End Providers.

(** C4: when the local form of a number begins with a declared prefix of
    five digits, [getTelco] returns the provider that declares that prefix;
    the five-character probe comes first, and the four-character probe
    decides only when the five-character one finds no entry. *)
Theorem getTelco_five_digit_prefix_first (phone n : string) :
  normalizePhone phone None = Ok n ->
  let localFormat := "0" ++ JS.slice_from 4 n in
  (forall (t : TelcoProvider) (p : string),
      In p (prefixes (TELCO_DATA t)) -> String.length p = 5 ->
      JS.startsWith p localFormat = true ->
      getTelco phone = Some t)
  /\ (JSMap.has (JS.slice_to 5 localFormat) PREFIX_MAP = true ->
      getTelco phone = JSMap.get (JS.slice_to 5 localFormat) PREFIX_MAP)
  /\ (JSMap.has (JS.slice_to 5 localFormat) PREFIX_MAP = false ->
      getTelco phone = JSMap.get (JS.slice_to 4 localFormat) PREFIX_MAP).
Proof.
  intros Hn localFormat. rewrite (getTelco_probes phone n Hn). fold localFormat.
  split; [|split].
  - intros t p Hin Hl Hs.
    apply startsWith_slice_to in Hs. rewrite Hl in Hs. rewrite Hs.
    destruct (five_digit_prefixes t p Hin Hl) as [-> [-> | ->]]; reflexivity.
  - now intros ->.
  - now intros ->.
Qed.

Lemma getTelco_five_digit_prefix_first_witness :
  getTelco "07025123456" = Some MTN.
Proof.
  apply (proj1 (getTelco_five_digit_prefix_first
                  "07025123456" "+2347025123456" eq_refl) MTN "07025");
    [simpl; tauto | reflexivity | reflexivity].
Defined.

(** C8: for every input that normalises successfully, the [number] field of
    [splitPhoneParts] is the canonical form without its four-character
    [+234] head, that is the ten subscriber digits, whether the matched
    prefix has four or five digits; and [splitPhoneParts('07025123456')] is
    [{prefix: '07025', telco: 'MTN', number: '7025123456'}]. *)
Theorem splitPhoneParts_number :
  (forall phone n : string,
      normalizePhone phone None = Ok n ->
      exists parts,
        splitPhoneParts phone = Ok parts
        /\ parts_number parts = JS.slice_from 4 n
        /\ n = "+234" ++ parts_number parts
        /\ String.length (parts_number parts) = 10
        /\ JS.all_digits (parts_number parts) = true)
  /\ splitPhoneParts "07025123456"
     = Ok (mkPhoneParts "07025" (Some MTN) "7025123456").
Proof.
  split; [|reflexivity].
  intros phone n Hn.
  destruct (normalizePhone_canonical phone n Hn) as (d & Hd & Hl & Hdig).
  assert (Hs : JS.slice_from 4 n = d) by (subst n; reflexivity).
  unfold splitPhoneParts. rewrite Hn. unfold bind. rewrite Hs.
  destruct (JSMap.get (JS.slice_to 5 ("0" ++ d)) PREFIX_MAP);
    eexists; (split; [reflexivity|]); simpl; auto.
Qed.

Lemma splitPhoneParts_number_witness :
  exists parts,
    splitPhoneParts "08031234567" = Ok parts
    /\ parts_number parts = JS.slice_from 4 "+2348031234567"
    /\ "+2348031234567" = "+234" ++ parts_number parts
    /\ String.length (parts_number parts) = 10
    /\ JS.all_digits (parts_number parts) = true.
Proof.
  apply (proj1 splitPhoneParts_number "08031234567" "+2348031234567").
  reflexivity.
Defined.

(* ================================================================= *)
(** ** Maps in insertion order *)

Section MapFacts.
Context {K V : Type} `{KeyEq K}.

Implicit Types (m : list (K * V)) (k key : K) (v value : V).

Lemma keq_refl k : keq k k = true.
Proof. destruct (keq_spec k k); congruence. Qed.

Lemma keq_eq k k' : keq k k' = true -> k = k'.
Proof. destruct (keq_spec k k'); congruence. Qed.

Lemma has_In_keys key m : JSMap.has key m = true <-> In key (JSMap.keys m).
Proof.
  induction m as [|[k v] m IH]; simpl; [intuition discriminate|].
  rewrite orb_true_iff, IH.
  destruct (keq_spec key k); intuition congruence.
Qed.

Lemma has_false_not_In key m :
  JSMap.has key m = false <-> ~ In key (JSMap.keys m).
Proof.
  rewrite <- has_In_keys. destruct (JSMap.has key m); intuition congruence.
Qed.

Lemma has_get key m :
  JSMap.has key m = true <-> exists v, JSMap.get key m = Some v.
Proof.
  induction m as [|[k v] m IH]; simpl.
  - split; [discriminate | intros [? [=]]].
  - destruct (keq key k); simpl; [|exact IH].
    split; eauto.
Qed.

Lemma get_In key value m : JSMap.get key m = Some value -> In (key, value) m.
Proof.
  induction m as [|[k v] m IH]; simpl; [discriminate|].
  destruct (keq_spec key k) as [->|]; [intros [= ->]; now left | auto].
Qed.

Lemma keys_delete key m :
  JSMap.keys (JSMap.delete key m)
  = filter (fun k => negb (keq key k)) (JSMap.keys m).
Proof.
  unfold JSMap.delete, JSMap.keys.
  induction m as [|[k v] m IH]; simpl; [reflexivity|].
  destruct (keq key k); simpl; now rewrite IH.
Qed.

Lemma In_delete e key m : In e (JSMap.delete key m) -> In e m.
Proof. unfold JSMap.delete. now intros [? _]%filter_In. Qed.

Lemma has_delete_same key m : JSMap.has key (JSMap.delete key m) = false.
Proof.
  apply has_false_not_In. rewrite keys_delete.
  intros [_ Hk]%filter_In. now rewrite keq_refl in Hk.
Qed.

Lemma has_delete_absent key k m :
  JSMap.has key m = false -> JSMap.has key (JSMap.delete k m) = false.
Proof.
  rewrite !has_false_not_In, keys_delete.
  intros Hn [Hin _]%filter_In. contradiction.
Qed.

Lemma delete_absent key m :
  JSMap.has key m = false -> JSMap.delete key m = m.
Proof.
  unfold JSMap.delete.
  induction m as [|[k v] m IH]; simpl; [reflexivity|].
  intros [Hk Hm]%orb_false_elim. rewrite Hk. simpl. now rewrite IH.
Qed.

Lemma size_delete_le key m :
  JSMap.size (JSMap.delete key m) <= JSMap.size m.
Proof. apply filter_length_le. Qed.

Lemma size_delete_present key m :
  JSMap.has key m = true -> JSMap.size (JSMap.delete key m) < JSMap.size m.
Proof.
  unfold JSMap.size, JSMap.delete.
  induction m as [|[k v] m IH]; simpl; [discriminate|].
  destruct (keq key k); simpl.
  - intros _. apply Nat.lt_succ_r, filter_length_le.
  - intros Hm. apply IH in Hm. lia.
Qed.

Lemma set_absent key value m :
  JSMap.has key m = false -> JSMap.set key value m = (m ++ [(key, value)])%list.
Proof.
  induction m as [|[k v] m IH]; simpl; [reflexivity|].
  intros [Hk Hm]%orb_false_elim. rewrite Hk. now rewrite IH.
Qed.

Lemma size_set_le key value m :
  JSMap.size (JSMap.set key value m) <= S (JSMap.size m).
Proof.
  unfold JSMap.size.
  induction m as [|[k v] m IH]; simpl; [lia|].
  destruct (keq key k); simpl; lia.
Qed.

Lemma In_set e key value m :
  In e (JSMap.set key value m) -> In e m \/ e = (key, value).
Proof.
  induction m as [|[k v] m IH]; simpl.
  - intros [<-|[]]. now right.
  - destruct (keq_spec key k) as [->|]; simpl.
    + intros [<-|Hin]; auto.
    + intros [<-|Hin]; auto. apply IH in Hin. tauto.
Qed.

Lemma get_snoc_absent key value m :
  JSMap.has key m = false -> JSMap.get key (m ++ [(key, value)])%list = Some value.
Proof.
  induction m as [|[k v] m IH]; simpl.
  - now rewrite keq_refl.
  - intros [Hk Hm]%orb_false_elim. rewrite Hk. auto.
Qed.

Lemma first_key_has k m : JSMap.first_key m = Some k -> JSMap.has k m = true.
Proof.
  destruct m as [|[k0 v0] m]; simpl; [discriminate|].
  intros [= ->]. now rewrite keq_refl.
Qed.

Lemma first_key_none m : JSMap.first_key m = None -> m = [].
Proof. destruct m as [|[k0 v0] m]; simpl; [reflexivity | discriminate]. Qed.

End MapFacts.

(* ================================================================= *)
(** ** Lists sorted by a measure *)

Section ByMeasure.
Context {A : Type}.

Implicit Types (g : A -> nat) (l : list A).

Lemma increasing_filter g (f : A -> bool) l :
  increasing g l -> increasing g (filter f l).
Proof.
  unfold increasing. induction 1 as [|a l Hs IH Hall]; simpl.
  - constructor.
  - destruct (f a); [|exact IH].
    constructor; [exact IH|].
    rewrite Forall_forall in *. intros x [Hx _]%filter_In. auto.
Qed.

Lemma increasing_snoc g l (k : A) :
  increasing g l -> Forall (fun x => g x < g k) l ->
  increasing g (l ++ [k])%list.
Proof.
  unfold increasing. induction 1 as [|a l Hs IH Hall]; simpl; intros Hk.
  - repeat constructor.
  - inversion Hk as [|? ? Hak Hlk]; subst.
    constructor; [auto|].
    apply Forall_app. split; [exact Hall | repeat constructor; exact Hak].
Qed.

Lemma increasing_ext g (g' : A -> nat) l :
  (forall x, In x l -> g' x = g x) -> increasing g l -> increasing g' l.
Proof.
  unfold increasing. intros Hext Hs. revert Hext.
  induction Hs as [|a l Hs IH Hall]; intros Hext; constructor.
  - apply IH. intros x Hx. apply Hext. now right.
  - rewrite Forall_forall in *. intros x Hx.
    rewrite (Hext a), (Hext x); simpl; auto.
Qed.

Lemma increasing_head_not_in_tail g (a : A) l : increasing g (a :: l) -> ~ In a l.
Proof.
  intros Hs Hin. apply StronglySorted_inv in Hs as [_ Hall].
  rewrite Forall_forall in Hall. specialize (Hall a Hin). lia.
Qed.

End ByMeasure.

(* ================================================================= *)
(** ** LRUCache: capacity *)

Section Capacity.
Context {K V : Type} `{KeyEq K}.

Implicit Types (c : LRU.LRUCache K V) (o : LRU.op K V).

Lemma maxSize_step c o : LRU.maxSize (LRU.step c o) = LRU.maxSize c.
Proof.
  destruct o; simpl; try reflexivity.
  unfold LRU.get. destruct (JSMap.has key (LRU.cache c)); [|reflexivity].
  destruct (JSMap.get key (LRU.cache c)); reflexivity.
Qed.

Lemma maxSize_run (maxSize : Z) (history : list (LRU.op K V)) :
  LRU.maxSize (LRU.run maxSize history) = maxSize.
Proof.
  induction history as [|o h IH]; simpl; [reflexivity|].
  now rewrite maxSize_step.
Qed.

Lemma size_get key c : LRU.size (snd (LRU.get key c)) <= LRU.size c.
Proof.
  unfold LRU.get, LRU.size.
  destruct (JSMap.has key (LRU.cache c)) eqn:Hh; [|simpl; lia].
  destruct (JSMap.get key (LRU.cache c)); simpl; [|lia].
  pose proof (size_set_le key v (JSMap.delete key (LRU.cache c))).
  pose proof (size_delete_present key (LRU.cache c) Hh). lia.
Qed.

Lemma size_set key value c :
  (forall k : K, is_undefined k = false) ->
  (1 <= LRU.maxSize c)%Z ->
  (Z.of_nat (LRU.size c) <= LRU.maxSize c)%Z ->
  (Z.of_nat (LRU.size (LRU.set key value c)) <= LRU.maxSize c)%Z.
Proof.
  intros Hdef Hmax Hinv. unfold LRU.set, LRU.size in *. simpl.
  destruct (JSMap.has key (LRU.cache c)) eqn:Hh.
  - pose proof (size_set_le key value (JSMap.delete key (LRU.cache c))).
    pose proof (size_delete_present key (LRU.cache c) Hh). lia.
  - destruct (Z.leb_spec (LRU.maxSize c) (Z.of_nat (JSMap.size (LRU.cache c))))
      as [Hfull|Hroom].
    + destruct (JSMap.first_key (LRU.cache c)) as [firstKey|] eqn:Hf.
      * rewrite (Hdef firstKey).
        pose proof (size_set_le key value (JSMap.delete firstKey (LRU.cache c))).
        pose proof (size_delete_present firstKey (LRU.cache c)
                      (first_key_has firstKey (LRU.cache c) Hf)). lia.
      * apply first_key_none in Hf. rewrite Hf in Hfull. simpl in Hfull. lia.
    + pose proof (size_set_le key value (LRU.cache c)). lia.
Qed.

(** With keys that are never [undefined] and a capacity of at least one
    entry, the bound holds after every sequence of requests. *)
Lemma size_bounded_from_capacity_one (maxSize : Z) (history : list (LRU.op K V)) :
  (forall k : K, is_undefined k = false) ->
  (1 <= maxSize)%Z ->
  (Z.of_nat (LRU.size (LRU.run maxSize history)) <= maxSize)%Z.
Proof.
  intros Hdef Hmax. induction history as [|o h IH]; simpl; [lia|].
  pose proof (maxSize_run maxSize h) as Hm.
  destruct o as [key|key value|key|key|]; simpl.
  - pose proof (size_get key (LRU.run maxSize h)). lia.
  - rewrite <- Hm at 2. apply size_set; [exact Hdef | rewrite Hm; assumption ..].
  - exact IH.
  - unfold LRU.size in *. simpl.
    pose proof (size_delete_le key (LRU.cache (LRU.run maxSize h))). lia.
  - lia.
Qed.

End Capacity.

(** A first entry whose key is [undefined] is never evicted: with a maximum
    size of 1, three [set]s of new keys leave three entries. *)
Example undefined_head_key_is_not_evicted :
  LRU.size (LRU.run 1 [LRU.Set_ (Some "08051234567") 3;
                       LRU.Set_ (Some "08031234567") 2;
                       LRU.Set_ None 1]) = 3.
Proof. reflexivity. Qed.

(** C5: the entry count should never exceed the maximum size given at
    construction; with a maximum size of 0 a single [set] leaves one entry
    in the cache. *)
Theorem lru_capacity_zero_holds_one_entry :
  let c := LRU.run 0 [LRU.Set_ "08031234567" 1] in
  LRU.maxSize c = 0%Z /\ LRU.size c = 1 /\ (Z.of_nat (LRU.size c) > LRU.maxSize c)%Z.
Proof. repeat split. Qed.

(* ================================================================= *)
(** ** LRUCache: recency *)

Section Recency.
Context {K V : Type} `{KeyEq K}.

Implicit Types (c : LRU.LRUCache K V) (o : LRU.op K V) (h : list (LRU.op K V)).

Lemma last_use_le key h : LRU.last_use key h <= List.length h.
Proof.
  induction h as [|o h IH]; simpl; [lia|].
  destruct (LRU.uses key o); lia.
Qed.

Lemma keys_snoc (m : list (K * V)) key value :
  JSMap.keys (m ++ [(key, value)])%list = (JSMap.keys m ++ [key])%list.
Proof. unfold JSMap.keys. now rewrite map_app. Qed.

(** A request that uses [key] and no other key puts [key] behind every
    key that was in order before. *)
Lemma increasing_after_use key o h (l : list K) :
  LRU.uses key o = true ->
  (forall x, x <> key -> LRU.uses x o = false) ->
  ~ In key l ->
  increasing (fun k => LRU.last_use k h) l ->
  increasing (fun k => LRU.last_use k (o :: h)) (l ++ [key])%list.
Proof.
  intros Hu Hother Hnin Hs.
  assert (Hsame : forall x, In x l ->
            LRU.last_use x (o :: h) = LRU.last_use x h).
  { intros x Hx. simpl. rewrite Hother; [reflexivity|].
    intros ->. contradiction. }
  apply increasing_snoc.
  - now apply (increasing_ext (fun k => LRU.last_use k h)).
  - apply Forall_forall. intros x Hx. rewrite (Hsame x Hx).
    simpl. rewrite Hu. pose proof (last_use_le x h). lia.
Qed.

(** A request that uses none of the keys of [l] leaves their order. *)
Lemma increasing_unused o h (l : list K) :
  (forall x, In x l -> LRU.uses x o = false) ->
  increasing (fun k => LRU.last_use k h) l ->
  increasing (fun k => LRU.last_use k (o :: h)) l.
Proof.
  intros Hu. apply increasing_ext.
  intros x Hx. simpl. now rewrite (Hu x Hx).
Qed.

(** [get] on a present key: the entry moves to the end. *)
Lemma get_present key value c :
  JSMap.get key (LRU.cache c) = Some value ->
  LRU.get key c
  = (Some value,
     LRU.mk (JSMap.delete key (LRU.cache c) ++ [(key, value)])%list
            (LRU.maxSize c)).
Proof.
  intros Hg. unfold LRU.get.
  assert (Hh : JSMap.has key (LRU.cache c) = true)
    by (apply has_get; eauto).
  rewrite Hh, Hg. now rewrite set_absent by apply has_delete_same.
Qed.

Lemma get_absent key c :
  JSMap.has key (LRU.cache c) = false -> LRU.get key c = (None, c).
Proof. intros Hh. unfold LRU.get. now rewrite Hh. Qed.

Lemma set_target_absent key c : JSMap.has key (set_target key c) = false.
Proof.
  unfold set_target.
  destruct (JSMap.has key (LRU.cache c)) eqn:Hh; [apply has_delete_same|].
  destruct (_ <=? _)%Z; [|exact Hh].
  destruct (JSMap.first_key (LRU.cache c)) as [firstKey|]; [|exact Hh].
  destruct (is_undefined firstKey); [exact Hh|].
  now apply has_delete_absent.
Qed.

Lemma set_target_increasing key c g :
  increasing g (JSMap.keys (LRU.cache c)) ->
  increasing g (JSMap.keys (set_target key c)).
Proof.
  intros Hs. unfold set_target.
  destruct (JSMap.has key (LRU.cache c));
    [rewrite keys_delete; now apply increasing_filter|].
  destruct (_ <=? _)%Z; [|exact Hs].
  destruct (JSMap.first_key (LRU.cache c)) as [firstKey|]; [|exact Hs].
  destruct (is_undefined firstKey); [exact Hs|].
  rewrite keys_delete. now apply increasing_filter.
Qed.

Lemma set_appends key value c :
  LRU.set key value c
  = LRU.mk (set_target key c ++ [(key, value)])%list (LRU.maxSize c).
Proof.
  unfold LRU.set. fold (set_target key c).
  now rewrite set_absent by apply set_target_absent.
Qed.

(** The iteration order of the map is the order of last use. *)
Lemma keys_in_order_of_last_use (maxSize : Z) h :
  increasing (fun k => LRU.last_use k h)
             (JSMap.keys (LRU.cache (LRU.run maxSize h))).
Proof.
  induction h as [|o h IH]; [constructor|].
  cbn [LRU.run]. set (c := LRU.run maxSize h) in *.
  destruct o as [key|key value|key|key|]; cbn [LRU.step].
  - (* get *)
    destruct (JSMap.has key (LRU.cache c)) eqn:Hh.
    + destruct (proj1 (has_get key (LRU.cache c)) Hh) as [value Hg].
      rewrite (get_present key value c Hg). cbn [snd LRU.cache].
      rewrite keys_snoc, keys_delete.
      apply (increasing_after_use key (LRU.Get key) h).
      * apply keq_refl.
      * intros x Hx. simpl. destruct (keq_spec x key); congruence.
      * intros [_ Hk]%filter_In. now rewrite keq_refl in Hk.
      * now apply increasing_filter.
    + rewrite (get_absent key c Hh). cbn [snd].
      apply (increasing_unused (LRU.Get key) h); [|exact IH].
      intros x Hx. simpl. destruct (keq_spec x key) as [->|]; [|reflexivity].
      apply has_In_keys in Hx. congruence.
  - (* set *)
    rewrite set_appends. cbn [LRU.cache]. rewrite keys_snoc.
    apply (increasing_after_use key (LRU.Set_ key value) h).
    + apply keq_refl.
    + intros x Hx. simpl. destruct (keq_spec x key); congruence.
    + apply has_false_not_In, set_target_absent.
    + now apply set_target_increasing.
  - (* has *)
    now apply (increasing_unused (LRU.Has key) h).
  - (* delete *)
    cbn [LRU.delete snd LRU.cache].
    apply (increasing_unused (LRU.Delete key) h); [reflexivity|].
    rewrite keys_delete. now apply increasing_filter.
  - (* clear *)
    constructor.
Qed.


End Recency.



(* ================================================================= *)
(** ** getPhoneInfo and its cache *)

Section InfoCache.

Implicit Types (st : LRU.LRUCache string PhoneInfo).

Lemma consistent_get phone st :
  consistent st -> consistent (snd (LRU.get phone st)).
Proof.
  intros Hc. unfold LRU.get.
  destruct (JSMap.has phone (LRU.cache st)); [|exact Hc].
  destruct (JSMap.get phone (LRU.cache st)) as [value|] eqn:Hg; [|exact Hc].
  intros k v [Hin|[= -> ->]]%In_set.
  - apply Hc. now apply In_delete in Hin.
  - apply Hc. now apply get_In.
Qed.

Lemma consistent_set phone st :
  consistent st -> consistent (LRU.set phone (getPhoneInfo_fresh phone) st).
Proof.
  intros Hc k v [Hin|[= -> ->]]%In_set; [|reflexivity].
  apply Hc.
  destruct (JSMap.has phone (LRU.cache st)); [now apply In_delete in Hin|].
  destruct (_ <=? _)%Z; [|exact Hin].
  destruct (JSMap.first_key (LRU.cache st)) as [firstKey|]; [|exact Hin].
  destruct (is_undefined firstKey); [exact Hin | now apply In_delete in Hin].
Qed.

Lemma getPhoneInfo_result phone st :
  consistent st -> fst (getPhoneInfo phone st) = getPhoneInfo_fresh phone.
Proof.
  intros Hc. unfold getPhoneInfo, LRU.get.
  destruct (JSMap.has phone (LRU.cache st)); [|reflexivity].
  destruct (JSMap.get phone (LRU.cache st)) as [value|] eqn:Hg; [|reflexivity].
  simpl. apply Hc. now apply get_In.
Qed.

Lemma getPhoneInfo_consistent phone st :
  consistent st -> consistent (snd (getPhoneInfo phone st)).
Proof.
  intros Hc. pose proof (consistent_get phone st Hc) as Hg.
  unfold getPhoneInfo. destruct (LRU.get phone st) as [[info|] st1]; simpl in *.
  - exact Hg.
  - now apply consistent_set.
Qed.

Lemma cache_after_consistent (calls : list call) : consistent (cache_after calls).
Proof.
  induction calls as [|[phone|] calls IH]; simpl.
  - intros k v [].
  - now apply getPhoneInfo_consistent.
  - intros k v [].
Qed.

Lemma getPhoneInfo_fresh_failure phone e :
  normalizePhone phone None = Throw e ->
  getPhoneInfo_fresh phone = mkPhoneInfo phone "" None false e164 "" "".
Proof.
  intros Hn. unfold getPhoneInfo_fresh, getPhoneInfo_try. now rewrite Hn.
Qed.

End InfoCache.

(** C3: [getPhoneInfo] is total (each call that can throw sits in its
    [try] block), and when the normalisation of the input fails it returns
    the record with [isValid = false], [normalized = ''], [telco = null],
    [prefix = ''], [number = ''] and [format = 'e164'], whatever calls were
    made on the cache before. *)
Theorem getPhoneInfo_absorbs_failure
    (calls : list call) (phone : string) (e : PhoneError) :
  normalizePhone phone None = Throw e ->
  fst (getPhoneInfo phone (cache_after calls))
  = {| original := phone; normalized := ""; telco := None; isValid := false;
       format := e164; prefix := ""; number := "" |}.
Proof.
  intros Hn.
  rewrite (getPhoneInfo_result phone _ (cache_after_consistent calls)).
  exact (getPhoneInfo_fresh_failure phone e Hn).
Qed.

Lemma getPhoneInfo_absorbs_failure_witness :
  fst (getPhoneInfo "123"
         (cache_after [CallGetPhoneInfo "123"; CallGetPhoneInfo "08031234567"]))
  = {| original := "123"; normalized := ""; telco := None; isValid := false;
       format := e164; prefix := ""; number := "" |}.
Proof.
  apply (getPhoneInfo_absorbs_failure
           [CallGetPhoneInfo "123"; CallGetPhoneInfo "08031234567"]
           "123" (InvalidLength "123")).
  reflexivity.
Defined.

(* ================================================================= *)
(** ** Random numbers *)

Section Random.

Lemma random_digits_spec (n : nat) (r : RandomSource) :
  String.length (fst (random_digits n r)) = n
  /\ JS.all_digits (fst (random_digits n r)) = true.
Proof.
  revert r. induction n as [|n IH]; intros r; [split; reflexivity|].
  cbn [random_digits]. unfold random_below.
  specialize (IH (fun i => r (S i))).
  destruct (random_digits n (fun i => r (S i))) as [ds r2].
  cbn [fst] in *. destruct IH as [Hl Hd].
  rewrite length_app, all_digits_app, Hl, Hd.
  rewrite digit_toString_digit by (apply Nat.mod_upper_bound; lia).
  split; reflexivity.
Qed.

Lemma getTelco_canonical_input (d : string) :
  String.length d = 10 -> JS.all_digits d = true ->
  getTelco ("+234" ++ d) = probe d.
Proof.
  intros Hl Hd.
  exact (getTelco_probes _ _ (normalizePhone_canonical_input d None Hl Hd)).
Qed.

Lemma PREFIX_MAP_entries :
  PREFIX_MAP = ltac:(let m := eval vm_compute in PREFIX_MAP in exact m).
Proof. vm_compute. reflexivity. Qed.

(** Case analysis on a character known to be a digit. *)
Ltac digit_cases Hc :=
  apply is_digit_cases in Hc; simpl in Hc;
  repeat (destruct Hc as [<-|Hc]); [..|contradiction].

(** A declared prefix, completed to eleven characters by digits, is a
    local number whose probes find the declaring provider. *)
Lemma declared_prefix_probe (t : TelcoProvider) (p ds : string) :
  In p (prefixes (TELCO_DATA t)) ->
  String.length ds = 11 - String.length p ->
  JS.all_digits ds = true ->
  exists d, p ++ ds = String "0" d
            /\ String.length d = 10
            /\ JS.all_digits d = true
            /\ probe d = Some t.
Proof.
  intros Hin Hl Hd.
  destruct t; simpl in Hin;
    repeat (destruct Hin as [<-|Hin]); try contradiction;
    simpl in Hl; (eexists; split; [reflexivity|]);
    (split; [simpl; now rewrite Hl|]);
    (split; [simpl; exact Hd|]);
    unfold probe; rewrite PREFIX_MAP_entries;
    try reflexivity;
    (destruct ds as [|c ds]; [discriminate Hl|]);
    simpl in Hd; apply andb_prop in Hd as [Hc _];
    digit_cases Hc; reflexivity.
Qed.

End Random.

(** C9: for every provider and every outcome of the random choices,
    [generateRandomPhone(provider)] returns a string that
    [isValidNigerianNumber] accepts and for which [getTelco] answers that
    provider. *)
Theorem generateRandomPhone_valid_for_provider :
  forall (t : TelcoProvider) (r : RandomSource),
  exists s,
    fst (generateRandomPhone (Some t) r) = Ok s
    /\ isValidNigerianNumber s = true
    /\ getTelco s = Some t.
Proof.
  intros t r. unfold generateRandomPhone, random_below, getTelcoInfo.
  change (List.length [t]) with 1. rewrite Nat.mod_1_r.
  change (nth 0 [t] MTN) with t.
  set (ps := prefixes (TELCO_DATA t)).
  set (p := nth (r 1 mod List.length ps) ps "").
  assert (Hin : In p ps).
  { apply nth_In. apply Nat.mod_upper_bound. subst ps. now destruct t. }
  pose proof (random_digits_spec (11 - String.length p) (fun i => r (S (S i))))
    as [Hl Hd].
  destruct (random_digits (11 - String.length p) (fun i => r (S (S i))))
    as [ds r3].
  cbn [fst] in *.
  destruct (declared_prefix_probe t p ds Hin Hl Hd)
    as (d & Hpd & Hld & Hdd & Hprobe).
  exists ("+234" ++ d). rewrite Hpd.
  split; [exact (normalizePhone_local_input d None Hld Hdd)|].
  split.
  - rewrite isValidNigerianNumber_is_ok.
    now rewrite (normalizePhone_canonical_input d None Hld Hdd).
  - now rewrite getTelco_canonical_input.
Qed.

(* ================================================================= *)
(** * Further properties *)

(** ** The branches of normalizePhone *)

Section Branches.

Lemma canonicalize_two (phone s : string) :
  canonicalize phone (String "2" s)
  = if JS.startsWith "34" s then Ok ("+2" ++ s)
    else Throw (InvalidCountryCode phone).
Proof.
  unfold canonicalize, JS.startsWith. simpl.
  destruct (ascii_dec "2" "2"); [reflexivity | congruence].
Qed.

Lemma canonicalize_other (phone : string) (c : ascii) (s : string) :
  (c =? "+")%char = false -> (c =? "2")%char = false -> (c =? "0")%char = false ->
  canonicalize phone (String c s)
  = if (String.length s =? 9)%nat then Ok ("+234" ++ String c s)
    else Throw (InvalidFormat phone).
Proof.
  intros Hp H2 H0. unfold canonicalize. simpl. now rewrite Hp, H2, H0.
Qed.

Lemma replace_CLEANUP_nonempty (phone : string) :
  PATTERNS.replace_CLEANUP phone <> "" -> String.length phone <> 0.
Proof. destruct phone; simpl; [congruence | discriminate]. Qed.

Lemma all_digits_first_not_plus (c : ascii) (s : string) :
  JS.all_digits (String c s) = true -> (c =? "+")%char = false.
Proof. simpl. intros [Hc _]%andb_prop. now apply is_digit_not_plus. Qed.

Lemma accepted_shape_normalizes (phone d : string) :
  String.length d = 10 -> JS.all_digits d = true ->
  accepted_shape (PATTERNS.replace_CLEANUP phone) d ->
  normalizePhone phone None = Ok ("+234" ++ d).
Proof.
  intros Hl Hd Hshape.
  assert (Hne : String.length phone <> 0).
  { apply replace_CLEANUP_nonempty.
    destruct Hshape as [H|[H|[H|[H _]]]]; rewrite H;
      try discriminate. destruct d; [discriminate Hl | discriminate]. }
  destruct Hshape as [Hc|[Hc|[Hc|(Hc & H0 & H2)]]];
    apply (normalizePhone_finish phone _ d Hne) with (2 := Hc);
    try assumption; try (simpl; lia).
  - change ("+234" ++ d) with (String "+" ("234" ++ d)).
    rewrite canonicalize_plus, startsWith_app. reflexivity.
  - change ("234" ++ d) with (String "2" ("34" ++ d)).
    rewrite canonicalize_two, startsWith_app. reflexivity.
  - change ("0" ++ d) with (String "0" d).
    rewrite canonicalize_zero, Hl. reflexivity.
  - destruct d as [|c s]; [discriminate Hl|].
    simpl in H0, H2. injection Hl as Hl.
    rewrite canonicalize_other, Hl; auto.
    now apply all_digits_first_not_plus with s.
Qed.

Lemma normalizes_accepted_shape (phone n : string) :
  normalizePhone phone None = Ok n ->
  exists d, n = "+234" ++ d /\ String.length d = 10 /\ JS.all_digits d = true
            /\ accepted_shape (PATTERNS.replace_CLEANUP phone) d.
Proof.
  intros Hn.
  destruct (normalizePhone_canonical phone n Hn) as (d & -> & Hl & Hd).
  exists d. repeat split; auto.
  revert Hn. unfold normalizePhone.
  destruct (String.length phone =? 0)%nat; [discriminate|].
  set (cleaned := PATTERNS.replace_CLEANUP phone).
  destruct ((_ <? 10)%nat || _); [discriminate|].
  destruct (canonicalize phone cleaned) as [m|e] eqn:Hk; simpl; [|discriminate].
  destruct (negb (PATTERNS.E164_VALIDATION m)); [discriminate|].
  intros [= ->]. revert Hk.
  destruct cleaned as [|c s].
  - unfold canonicalize. simpl. discriminate.
  - destruct (Ascii.eqb_spec c "+") as [->|Hp].
    { rewrite canonicalize_plus. destruct (JS.startsWith "234" s); [|discriminate].
      intros [= ->]. now left. }
    destruct (Ascii.eqb_spec c "2") as [->|H2].
    { rewrite canonicalize_two. destruct (JS.startsWith "34" s); [|discriminate].
      intros [= ->]. right; now left. }
    destruct (Ascii.eqb_spec c "0") as [->|H0].
    { rewrite canonicalize_zero.
      destruct (String.length s =? 10)%nat;
        [|destruct (String.length s =? 9)%nat; discriminate].
      intros [= ->]. right; right; now left. }
    apply Ascii.eqb_neq in Hp, H2, H0.
    rewrite canonicalize_other by assumption.
    destruct (String.length s =? 9)%nat; [|discriminate].
    intros [= <-]. right; right; right. simpl. auto.
Qed.

End Branches.

(** X1: [normalizePhone(phone)] succeeds with result [n] exactly when [n]
    is [+234] followed by ten digits [d] and the cleaned input is one of
    [+234 d], [234 d], [0 d], or [d] itself with a first digit other than
    [0] and [2]. *)
Theorem normalizePhone_success_iff (phone n : string) :
  normalizePhone phone None = Ok n <->
  exists d, n = "+234" ++ d /\ String.length d = 10 /\ JS.all_digits d = true
            /\ accepted_shape (PATTERNS.replace_CLEANUP phone) d.
Proof.
  split.
  - apply normalizes_accepted_shape.
  - intros (d & -> & Hl & Hd & Hs). now apply accepted_shape_normalizes.
Qed.

Lemma normalizePhone_success_iff_witness :
  normalizePhone "234-803-123-4567" None = Ok "+2348031234567".
Proof.
  apply (proj2 (normalizePhone_success_iff "234-803-123-4567" "+2348031234567")).
  exists "8031234567". repeat split. right; left. reflexivity.
Defined.

Section MoreBranches.

Lemma startsWith_cons (c : ascii) (p s : string) :
  JS.startsWith (String c p) (String c s) = JS.startsWith p s.
Proof.
  unfold JS.startsWith. simpl.
  destruct (ascii_dec c c); [reflexivity | congruence].
Qed.

(** After the length checks: the first [switch], then the final pattern
    check. *)
Lemma normalizePhone_in_range (phone : string) :
  String.length phone <> 0 ->
  10 <= String.length (PATTERNS.replace_CLEANUP phone) <= 14 ->
  normalizePhone phone None
  = (m <- canonicalize phone (PATTERNS.replace_CLEANUP phone) ;;
     if PATTERNS.E164_VALIDATION m then Ok m
     else Throw (InvalidNigerianNumber phone)).
Proof.
  intros Hne Hlen. unfold normalizePhone.
  destruct (Nat.eqb_spec (String.length phone) 0) as [|_]; [contradiction|].
  destruct (Nat.ltb_spec (String.length (PATTERNS.replace_CLEANUP phone)) 10);
    [lia|].
  destruct (Nat.ltb_spec 14 (String.length (PATTERNS.replace_CLEANUP phone)));
    [lia|].
  simpl orb. cbv iota.
  destruct (canonicalize phone _) as [m|e]; simpl; [|reflexivity].
  destruct (PATTERNS.E164_VALIDATION m); reflexivity.
Qed.

Lemma normalizePhone_out_of_range (phone : string) (format : option PhoneFormat) :
  String.length phone <> 0 ->
  String.length (PATTERNS.replace_CLEANUP phone) < 10
  \/ 14 < String.length (PATTERNS.replace_CLEANUP phone) ->
  normalizePhone phone format = Throw (InvalidLength phone).
Proof.
  intros Hne Hlen. unfold normalizePhone.
  destruct (Nat.eqb_spec (String.length phone) 0) as [|_]; [contradiction|].
  destruct (Nat.ltb_spec (String.length (PATTERNS.replace_CLEANUP phone)) 10);
    [reflexivity|].
  destruct (Nat.ltb_spec 14 (String.length (PATTERNS.replace_CLEANUP phone)));
    [reflexivity | lia].
Qed.

Lemma char0_nonempty (s : string) (c : ascii) :
  JS.char0 s = Some c -> exists r, s = String c r.
Proof. destruct s; simpl; [discriminate | intros [= ->]; eauto]. Qed.

End MoreBranches.

(** X2: an empty input fails with the TypeError; a non-empty input of fewer
    than ten characters, or one that keeps more than fourteen digits and
    plus signs, fails with InvalidLength, for every requested format. *)
Theorem normalizePhone_length_errors (phone : string) (format : option PhoneFormat) :
  (phone = "" -> normalizePhone phone format = Throw EmptyOrNonStringInput)
  /\ (phone <> "" -> String.length phone < 10 ->
      normalizePhone phone format = Throw (InvalidLength phone))
  /\ (14 < String.length (PATTERNS.replace_CLEANUP phone) ->
      normalizePhone phone format = Throw (InvalidLength phone)).
Proof.
  split; [now intros -> |]. split.
  - intros Hne Hlt. apply normalizePhone_out_of_range.
    + destruct phone; [congruence | discriminate].
    + left. pose proof (replace_CLEANUP_length phone). lia.
  - intros Hgt. apply normalizePhone_out_of_range; [|now right].
    pose proof (replace_CLEANUP_length phone). lia.
Qed.

Lemma normalizePhone_length_errors_witness :
  normalizePhone "0803-1234" (Some local) = Throw (InvalidLength "0803-1234").
Proof.
  apply (proj1 (proj2 (normalizePhone_length_errors "0803-1234" (Some local))));
    [discriminate | simpl; lia].
Defined.

(** X3: when the cleaned string has a length in [10, 14] and starts with
    [+] or with [2], the candidate is the cleaned string with a [+] in
    front (added when it starts with [2]); without the country code [+234]
    at its head the call fails with InvalidCountryCode, otherwise the
    result is the candidate if it is [+234] and ten digits, and
    InvalidNigerianNumber if not. *)
Theorem normalizePhone_country_code_branches (phone : string) :
  let cleaned := PATTERNS.replace_CLEANUP phone in
  10 <= String.length cleaned <= 14 ->
  JS.char0 cleaned = Some "+"%char \/ JS.char0 cleaned = Some "2"%char ->
  let candidate :=
    if JS.char_is (JS.char0 cleaned) "+" then cleaned else "+" ++ cleaned in
  normalizePhone phone None =
    if negb (JS.startsWith "+234" candidate) then Throw (InvalidCountryCode phone)
    else if PATTERNS.E164_VALIDATION candidate then Ok candidate
    else Throw (InvalidNigerianNumber phone).
Proof.
  intros cleaned Hlen Hfirst candidate.
  assert (Hne : String.length phone <> 0).
  { apply replace_CLEANUP_nonempty. fold cleaned.
    destruct Hfirst as [H|H]; apply char0_nonempty in H as [r ->]; discriminate. }
  rewrite (normalizePhone_in_range phone Hne Hlen). fold cleaned.
  subst candidate.
  destruct Hfirst as [H|H]; apply char0_nonempty in H as [r Hr]; rewrite Hr.
  - rewrite canonicalize_plus. simpl JS.char_is. cbv iota.
    rewrite (startsWith_cons "+" "234" r).
    destruct (JS.startsWith "234" r); reflexivity.
  - rewrite canonicalize_two. simpl JS.char_is. cbv iota.
    change ("+" ++ String "2" r) with (String "+" (String "2" r)).
    rewrite (startsWith_cons "+" "234" (String "2" r)).
    rewrite (startsWith_cons "2" "34" r).
    destruct (JS.startsWith "34" r); reflexivity.
Qed.

Lemma normalizePhone_country_code_branches_witness :
  normalizePhone "2031234567" None = Throw (InvalidCountryCode "2031234567").
Proof.
  apply (normalizePhone_country_code_branches "2031234567");
    [simpl; lia | right; reflexivity].
Defined.

(** X4: when the cleaned string has a length in [10, 14] and starts with a
    character other than [+], [2] and [0], the call succeeds only at length
    ten: the result is [+234] and the cleaned string if that is all digits,
    InvalidNigerianNumber if it holds a [+]; at any other length it fails
    with InvalidFormat. *)
Theorem normalizePhone_bare_branch (phone : string) (c : ascii) :
  let cleaned := PATTERNS.replace_CLEANUP phone in
  10 <= String.length cleaned <= 14 ->
  JS.char0 cleaned = Some c ->
  c <> "+"%char -> c <> "2"%char -> c <> "0"%char ->
  normalizePhone phone None =
    if (String.length cleaned =? 10)%nat then
      if JS.all_digits cleaned then Ok ("+234" ++ cleaned)
      else Throw (InvalidNigerianNumber phone)
    else Throw (InvalidFormat phone).
Proof.
  intros cleaned Hlen Hfirst Hp H2 H0.
  assert (Hne : String.length phone <> 0).
  { apply replace_CLEANUP_nonempty. fold cleaned.
    apply char0_nonempty in Hfirst as [r ->]. discriminate. }
  rewrite (normalizePhone_in_range phone Hne Hlen). fold cleaned.
  apply char0_nonempty in Hfirst as [r Hr]. rewrite Hr.
  apply Ascii.eqb_neq in Hp, H2, H0.
  rewrite canonicalize_other by assumption.
  change (String.length (String c r) =? 10)%nat with (String.length r =? 9)%nat.
  destruct (Nat.eqb_spec (String.length r) 9) as [Hl|Hl]; [|reflexivity].
  unfold bind, PATTERNS.E164_VALIDATION, PATTERNS.literal_then_10_digits.
  rewrite startsWith_app, slice_from_app.
  simpl. rewrite Hl. simpl.
  destruct (JS.is_digit c && JS.all_digits r); reflexivity.
Qed.

Lemma normalizePhone_bare_branch_witness :
  normalizePhone "803 123 4567" None = Ok "+2348031234567".
Proof.
  apply (normalizePhone_bare_branch "803 123 4567" "8");
    [simpl; lia | reflexivity | discriminate | discriminate | discriminate].
Defined.

(* ================================================================= *)
(** ** Renderings and re-normalisation *)

Section Renderings.

Lemma normalizePhone_ok_inv (phone r : string) (f : option PhoneFormat) :
  normalizePhone phone f = Ok r ->
  exists d, normalizePhone phone None = Ok ("+234" ++ d)
            /\ r = convert (target f) ("+234" ++ d)
            /\ String.length d = 10 /\ JS.all_digits d = true.
Proof.
  rewrite normalizePhone_format.
  destruct (normalizePhone phone None) as [n|e] eqn:Hn; simpl; [|discriminate].
  intros [= <-].
  destruct (normalizePhone_canonical phone n Hn) as (d & -> & Hl & Hd).
  exists d. auto.
Qed.

Lemma normalizePhone_rendering_input (d : string) (f f' : option PhoneFormat) :
  String.length d = 10 -> JS.all_digits d = true ->
  normalizePhone (convert (target f) ("+234" ++ d)) f'
  = Ok (convert (target f') ("+234" ++ d)).
Proof.
  intros Hl Hd. destruct f as [[]|]; simpl target.
  - rewrite convert_local. now apply normalizePhone_local_input.
  - now apply normalizePhone_canonical_input.
  - now apply normalizePhone_canonical_input.
  - now apply normalizePhone_canonical_input.
Qed.

Lemma renormalize (phone r : string) (f f' : option PhoneFormat) :
  normalizePhone phone f = Ok r ->
  normalizePhone r f' = normalizePhone phone f'.
Proof.
  intros Hr.
  destruct (normalizePhone_ok_inv phone r f Hr) as (d & Hn & -> & Hl & Hd).
  rewrite (normalizePhone_rendering_input d f f' Hl Hd).
  rewrite (normalizePhone_format phone f'), Hn. reflexivity.
Qed.

Lemma same_cleaned_same_canonical (p1 p2 n : string) :
  PATTERNS.replace_CLEANUP p1 = PATTERNS.replace_CLEANUP p2 ->
  normalizePhone p1 None = Ok n -> normalizePhone p2 None = Ok n.
Proof.
  intros Hc Hn.
  destruct (normalizes_accepted_shape p1 n Hn) as (d & -> & Hl & Hd & Hs).
  rewrite Hc in Hs. now apply accepted_shape_normalizes.
Qed.

Lemma same_cleaned_same_is_ok (p1 p2 : string) :
  PATTERNS.replace_CLEANUP p1 = PATTERNS.replace_CLEANUP p2 ->
  match normalizePhone p1 None, normalizePhone p2 None with
  | Ok n1, Ok n2 => n1 = n2
  | Throw _, Throw _ => True
  | _, _ => False
  end.
Proof.
  intros Hc.
  destruct (normalizePhone p1 None) as [n1|e1] eqn:H1;
    destruct (normalizePhone p2 None) as [n2|e2] eqn:H2; auto.
  - apply (same_cleaned_same_canonical p1 p2 n1 Hc) in H1. congruence.
  - apply (same_cleaned_same_canonical p1 p2 n1 Hc) in H1. congruence.
  - apply (same_cleaned_same_canonical p2 p1 n2 (eq_sym Hc)) in H2. congruence.
Qed.

End Renderings.

(** X5: two inputs with the same cleaned string (they differ only in
    characters other than digits and [+]) normalise to the same result in
    every format, are valid together, and have the same provider. *)
Theorem normalizePhone_depends_on_cleaned (p1 p2 : string) :
  PATTERNS.replace_CLEANUP p1 = PATTERNS.replace_CLEANUP p2 ->
  (forall format n,
      normalizePhone p1 format = Ok n <-> normalizePhone p2 format = Ok n)
  /\ isValidNigerianNumber p1 = isValidNigerianNumber p2
  /\ getTelco p1 = getTelco p2.
Proof.
  intros Hc. pose proof (same_cleaned_same_is_ok p1 p2 Hc) as Hsame.
  split; [|split].
  - intros format n. rewrite (normalizePhone_format p1), (normalizePhone_format p2).
    destruct (normalizePhone p1 None), (normalizePhone p2 None);
      try contradiction; subst; simpl; split; auto; discriminate.
  - rewrite !isValidNigerianNumber_is_ok.
    destruct (normalizePhone p1 None), (normalizePhone p2 None);
      try contradiction; reflexivity.
  - unfold getTelco.
    destruct (normalizePhone p1 None), (normalizePhone p2 None);
      try contradiction; subst; reflexivity.
Qed.

Lemma normalizePhone_depends_on_cleaned_witness :
  getTelco "0803 123 4567" = getTelco "(0803) 123-4567".
Proof.
  apply (normalizePhone_depends_on_cleaned "0803 123 4567" "(0803) 123-4567").
  reflexivity.
Defined.

(** X6: every successful result of [normalizePhone], in whatever format it
    was requested, normalises again to what the original input normalises
    to; in particular normalising is idempotent. *)
Theorem normalizePhone_of_result (phone r : string) (f f' : option PhoneFormat) :
  normalizePhone phone f = Ok r ->
  normalizePhone r f' = normalizePhone phone f'
  /\ normalizePhone r f = Ok r.
Proof.
  intros Hr. split; [now apply renormalize with f|].
  now rewrite (renormalize phone r f f Hr).
Qed.

Lemma normalizePhone_of_result_witness :
  normalizePhone "08031234567" (Some international)
  = normalizePhone "234 803 123 4567" (Some international)
  /\ normalizePhone "08031234567" (Some local) = Ok "08031234567".
Proof.
  apply (normalizePhone_of_result "234 803 123 4567" "08031234567"
           (Some local) (Some international)).
  reflexivity.
Defined.

(** X7: [formatPhoneToLocal] and [formatPhoneToInternational] undo each
    other on their results: the local form of the international form is the
    local form of the input, and conversely; each is the identity on its
    own results. *)
Theorem formatPhone_round_trips (phone : string) :
  (forall i, formatPhoneToInternational phone = Ok i ->
     formatPhoneToLocal i = formatPhoneToLocal phone
     /\ formatPhoneToInternational i = Ok i)
  /\ (forall l, formatPhoneToLocal phone = Ok l ->
     formatPhoneToInternational l = formatPhoneToInternational phone
     /\ formatPhoneToLocal l = Ok l).
Proof.
  unfold formatPhoneToInternational, formatPhoneToLocal.
  split; intros r Hr.
  - split; [exact (renormalize phone r _ _ Hr)|].
    now rewrite (renormalize phone r _ (Some international) Hr).
  - split; [exact (renormalize phone r _ _ Hr)|].
    now rewrite (renormalize phone r _ (Some local) Hr).
Qed.

Lemma formatPhone_round_trips_witness :
  formatPhoneToLocal "+2348031234567" = formatPhoneToLocal "803-123-4567"
  /\ formatPhoneToInternational "+2348031234567" = Ok "+2348031234567".
Proof.
  apply (proj1 (formatPhone_round_trips "803-123-4567") "+2348031234567").
  reflexivity.
Defined.

(* ================================================================= *)
(** ** Type guards *)

(** X8: [isNormalizedPhone] holds exactly of the fixed points of
    [normalizePhone]: the strings that normalise to themselves. *)
Theorem isNormalizedPhone_iff_fixed_point (s : string) :
  isNormalizedPhone s = true <-> normalizePhone s None = Ok s.
Proof.
  unfold isNormalizedPhone. split.
  - intros Hv.
    destruct (literal_then_10_digits_elim "+234" s Hv) as (d & -> & Hl & Hd).
    exact (normalizePhone_canonical_input d None Hl Hd).
  - intros Hn.
    destruct (normalizePhone_canonical s s Hn) as (d & -> & Hl & Hd).
    exact (literal_then_10_digits_intro "+234" d Hl Hd).
Qed.

Lemma isNormalizedPhone_iff_fixed_point_witness :
  normalizePhone "+2348031234567" None = Ok "+2348031234567".
Proof.
  apply (proj1 (isNormalizedPhone_iff_fixed_point "+2348031234567")).
  reflexivity.
Defined.

Section Validated.

Lemma isValidatedPhone_shapes (phone : string) :
  isValidatedPhone phone = true <->
  exists d, String.length d = 10 /\ JS.all_digits d = true
            /\ (PATTERNS.replace_CLEANUP phone = "+234" ++ d
                \/ PATTERNS.replace_CLEANUP phone = "234" ++ d
                \/ PATTERNS.replace_CLEANUP phone = "0" ++ d).
Proof.
  unfold isValidatedPhone, replace_country_prefix.
  set (cleaned := PATTERNS.replace_CLEANUP phone). split.
  - destruct (JS.startsWith "234" cleaned) eqn:H234;
      [|destruct (JS.startsWith "0" cleaned) eqn:H0]; intros Hv;
      destruct (literal_then_10_digits_elim "+234" _ Hv) as (d & He & Hl & Hd);
      exists d; repeat split; auto.
    + right; left. injection He as He. rewrite <- He.
      exact (startsWith_split "234" cleaned H234).
    + right; right. injection He as He. rewrite <- He.
      exact (startsWith_split "0" cleaned H0).
  - intros (d & Hl & Hd & [Hc|[Hc|Hc]]); rewrite Hc.
    + change (JS.startsWith "234" ("+234" ++ d)) with false.
      change (JS.startsWith "0" ("+234" ++ d)) with false.
      cbv iota. exact (literal_then_10_digits_intro "+234" d Hl Hd).
    + rewrite (startsWith_app "234" d).
      change (JS.slice_from 3 ("234" ++ d)) with d.
      exact (literal_then_10_digits_intro "+234" d Hl Hd).
    + change (JS.startsWith "234" ("0" ++ d)) with false.
      rewrite (startsWith_app "0" d).
      change (JS.slice_from 1 ("0" ++ d)) with d.
      exact (literal_then_10_digits_intro "+234" d Hl Hd).
Qed.

End Validated.

(** X9: [isValidatedPhone] accepts an input exactly when its cleaned string
    is [+234], [234] or [0] followed by ten digits; whatever it accepts
    [isValidNigerianNumber] accepts too, but a bare ten-digit number, which
    [normalizePhone] can accept, is never accepted by [isValidatedPhone]. *)
Theorem isValidatedPhone_spec (phone : string) :
  (isValidatedPhone phone = true <->
     exists d, String.length d = 10 /\ JS.all_digits d = true
               /\ (PATTERNS.replace_CLEANUP phone = "+234" ++ d
                   \/ PATTERNS.replace_CLEANUP phone = "234" ++ d
                   \/ PATTERNS.replace_CLEANUP phone = "0" ++ d))
  /\ (isValidatedPhone phone = true -> isValidNigerianNumber phone = true)
  /\ (String.length (PATTERNS.replace_CLEANUP phone) = 10 ->
      isValidatedPhone phone = false).
Proof.
  split; [apply isValidatedPhone_shapes|]. split.
  - intros (d & Hl & Hd & Hs)%isValidatedPhone_shapes.
    rewrite isValidNigerianNumber_is_ok.
    rewrite (accepted_shape_normalizes phone d Hl Hd); [reflexivity|].
    unfold accepted_shape. tauto.
  - intros Hlen. destruct (isValidatedPhone phone) eqn:Hv; [|reflexivity].
    apply isValidatedPhone_shapes in Hv as (d & Hl & Hd & [Hc|[Hc|Hc]]);
      rewrite Hc in Hlen; simpl in Hlen; lia.
Qed.

Lemma isValidatedPhone_spec_witness :
  isValidatedPhone "803 123 4567" = false
  /\ isValidNigerianNumber "803 123 4567" = true.
Proof.
  split; [|reflexivity].
  apply (proj2 (proj2 (isValidatedPhone_spec "803 123 4567"))).
  reflexivity.
Defined.

(* ================================================================= *)
(** ** Safe and batch wrappers *)

(** X10: for every format [safeNormalizePhone] succeeds exactly when
    [isValidNigerianNumber] holds; on success [data] is the result of
    [normalizePhone] and [error] is null; on failure [data] is null and
    [error] is the message of the error [normalizePhone] throws. *)
Theorem safeNormalizePhone_spec (phone : string) (format : option PhoneFormat) :
  success (safeNormalizePhone phone format) = isValidNigerianNumber phone
  /\ (forall r, normalizePhone phone format = Ok r ->
        safeNormalizePhone phone format = mkPhoneResult true (Some r) None)
  /\ (forall e, normalizePhone phone format = Throw e ->
        safeNormalizePhone phone format
        = mkPhoneResult false None (Some (message e))
        /\ isValidNigerianNumber phone = false).
Proof.
  rewrite isValidNigerianNumber_is_ok. unfold safeNormalizePhone.
  rewrite (normalizePhone_format phone format).
  destruct (normalizePhone phone None) as [n|e0]; simpl;
    (split; [reflexivity|]); split; intros ? [= <-]; auto.
Qed.

Lemma safeNormalizePhone_spec_witness :
  safeNormalizePhone "123" (Some local)
  = mkPhoneResult false None (Some "Invalid phone number length: 123")
  /\ isValidNigerianNumber "123" = false.
Proof.
  apply (proj2 (proj2 (safeNormalizePhone_spec "123" (Some local)))
           (InvalidLength "123")).
  reflexivity.
Defined.

(** X11: each batch function returns one result per input, in input order,
    equal to what the single-item function returns on that input, and the
    [success] flags of [batchNormalizePhones] are the results of
    [batchValidatePhones]. *)
Theorem batch_results_pointwise (phones : list string) (format : option PhoneFormat) :
  List.length (batchNormalizePhones phones format) = List.length phones
  /\ List.length (batchGetTelcos phones) = List.length phones
  /\ List.length (batchValidatePhones phones) = List.length phones
  /\ (forall i phone, nth_error phones i = Some phone ->
        nth_error (batchNormalizePhones phones format) i
        = Some (safeNormalizePhone phone format)
        /\ nth_error (batchGetTelcos phones) i = Some (getTelco phone)
        /\ nth_error (batchValidatePhones phones) i
           = Some (isValidNigerianNumber phone))
  /\ map success (batchNormalizePhones phones format)
     = batchValidatePhones phones.
Proof.
  unfold batchNormalizePhones, batchGetTelcos, batchValidatePhones.
  rewrite !length_map. repeat split.
  - exact (map_nth_error (fun p => safeNormalizePhone p format) i phones H).
  - exact (map_nth_error getTelco i phones H).
  - exact (map_nth_error isValidNigerianNumber i phones H).
  - rewrite map_map. apply map_ext. intros phone.
    unfold safeNormalizePhone. rewrite isValidNigerianNumber_is_ok.
    rewrite (normalizePhone_format phone format).
    destruct (normalizePhone phone None); reflexivity.
Qed.

Lemma batch_results_pointwise_witness :
  nth_error (batchNormalizePhones ["08031234567"; "123"] None) 1
  = Some (safeNormalizePhone "123" None)
  /\ nth_error (batchGetTelcos ["08031234567"; "123"]) 1 = Some (getTelco "123")
  /\ nth_error (batchValidatePhones ["08031234567"; "123"]) 1
     = Some (isValidNigerianNumber "123").
Proof.
  apply (proj1 (proj2 (proj2 (proj2
           (batch_results_pointwise ["08031234567"; "123"] None)))) 1 "123").
  reflexivity.
Defined.

(* ================================================================= *)
(** ** The prefix index *)

Section PrefixIndex.

Lemma PREFIX_MAP_declared (p : string) (t : TelcoProvider) :
  JSMap.get p PREFIX_MAP = Some t <-> In p (prefixes (TELCO_DATA t)).
Proof.
  split.
  - intros Hg. apply get_In in Hg. rewrite PREFIX_MAP_entries in Hg.
    simpl in Hg.
    repeat (destruct Hg as [[= <- <-]|Hg]; [simpl; tauto|]).
    contradiction.
  - destruct t; simpl; intros Hin;
      repeat (destruct Hin as [<-|Hin]; [reflexivity|]); contradiction.
Qed.

Lemma declared_once (p : string) (t1 t2 : TelcoProvider) :
  In p (prefixes (TELCO_DATA t1)) -> In p (prefixes (TELCO_DATA t2)) -> t1 = t2.
Proof.
  intros H1%PREFIX_MAP_declared H2%PREFIX_MAP_declared. congruence.
Qed.

Lemma startsWith_slice_to_self (k : nat) (s : string) :
  JS.startsWith (JS.slice_to k s) s = true.
Proof.
  revert s. induction k as [|k IH]; intros s.
  - now destruct s.
  - destruct s as [|c s]; [reflexivity|].
    simpl JS.slice_to. rewrite startsWith_cons. apply IH.
Qed.

Lemma has_false_get_none {K V : Type} `{KeyEq K} (k : K) (m : list (K * V)) :
  JSMap.has k m = false <-> JSMap.get k m = None.
Proof.
  destruct (JSMap.has k m) eqn:Hh.
  - apply has_get in Hh as [v Hv]. rewrite Hv. split; discriminate.
  - destruct (JSMap.get k m) as [v|] eqn:Hg; [|tauto].
    assert (Ht : JSMap.has k m = true) by (apply has_get; eauto).
    congruence.
Qed.

(** What the probes find is a declared prefix at the head of the local
    form. *)
Lemma probe_sound (d : string) (t : TelcoProvider) :
  probe d = Some t ->
  exists p, In p (prefixes (TELCO_DATA t)) /\ JS.startsWith p ("0" ++ d) = true.
Proof.
  unfold probe.
  destruct (JSMap.has (JS.slice_to 5 ("0" ++ d)) PREFIX_MAP);
    intros Hg%PREFIX_MAP_declared; eexists; split;
    try exact Hg; apply startsWith_slice_to_self.
Qed.

(** A declared prefix at the head of the local form is what the probes
    find. *)
Lemma probe_complete (d p : string) (t : TelcoProvider) :
  String.length d = 10 -> JS.all_digits d = true ->
  In p (prefixes (TELCO_DATA t)) -> JS.startsWith p ("0" ++ d) = true ->
  probe d = Some t.
Proof.
  intros Hl Hd Hin Hs.
  pose proof (startsWith_split p ("0" ++ d) Hs) as Hsplit.
  set (ds := JS.slice_from (String.length p) ("0" ++ d)) in *.
  assert (Hlen : String.length p + String.length ds = 11).
  { rewrite <- length_app, <- Hsplit. simpl. now rewrite Hl. }
  assert (Hdig : JS.all_digits ds = true).
  { assert (Hall : JS.all_digits (p ++ ds) = true)
      by (rewrite <- Hsplit; simpl; exact Hd).
    rewrite all_digits_app in Hall. now apply andb_prop in Hall. }
  destruct (declared_prefix_probe t p ds Hin ltac:(lia) Hdig)
    as (d' & He & _ & _ & Hp).
  rewrite <- Hsplit in He. injection He as ->. exact Hp.
Qed.

Lemma splitPhoneParts_ok (phone n : string) :
  normalizePhone phone None = Ok n ->
  exists parts,
    splitPhoneParts phone = Ok parts
    /\ parts_telco parts = getTelco phone
    /\ parts_number parts = JS.slice_from 4 n
    /\ match parts_telco parts with
       | Some t =>
           In (parts_prefix parts) (prefixes (TELCO_DATA t))
           /\ JS.startsWith (parts_prefix parts) ("0" ++ parts_number parts)
              = true
       | None => parts_prefix parts = ""
       end.
Proof.
  intros Hn. unfold splitPhoneParts, getTelco. rewrite Hn. unfold bind.
  set (localFormat := "0" ++ JS.slice_from 4 n).
  destruct (JSMap.get (JS.slice_to 5 localFormat) PREFIX_MAP) as [t5|] eqn:H5.
  - eexists. split; [reflexivity|]. cbn [parts_telco parts_number parts_prefix].
    assert (Hh : JSMap.has (JS.slice_to 5 localFormat) PREFIX_MAP = true)
      by (apply has_get; eauto).
    rewrite Hh. repeat split; auto.
    + now apply PREFIX_MAP_declared.
    + apply startsWith_slice_to_self.
  - apply has_false_get_none in H5 as Hh. rewrite Hh.
    eexists. split; [reflexivity|]. cbn [parts_telco parts_number parts_prefix].
    repeat split.
    destruct (JSMap.get (JS.slice_to 4 localFormat) PREFIX_MAP) as [t4|] eqn:H4;
      [|reflexivity].
    split; [now apply PREFIX_MAP_declared | apply startsWith_slice_to_self].
Qed.

End PrefixIndex.

(** X12: [getTelcoByPrefix(p)] returns a provider exactly when that
    provider declares [p] in TELCO_DATA; no prefix is declared by two
    providers, so no entry of PREFIX_MAP was overwritten when it was
    built. *)
Theorem getTelcoByPrefix_iff_declared :
  (forall (p : string) (t : TelcoProvider),
      getTelcoByPrefix p = Some t <-> In p (prefixes (getTelcoInfo t)))
  /\ (forall (p : string) (t1 t2 : TelcoProvider),
      In p (prefixes (getTelcoInfo t1)) -> In p (prefixes (getTelcoInfo t2)) ->
      t1 = t2).
Proof.
  split.
  - intros p t. apply PREFIX_MAP_declared.
  - intros p t1 t2. apply declared_once.
Qed.

Lemma getTelcoByPrefix_iff_declared_witness :
  getTelcoByPrefix "0805" = Some GLO.
Proof.
  apply (proj2 (proj1 getTelcoByPrefix_iff_declared "0805" GLO)).
  simpl. tauto.
Defined.

(** X13: for an input that normalises, [getTelco] returns provider [t]
    exactly when the local form of the number starts with a prefix that
    [t] declares, of four or five digits. *)
Theorem getTelco_iff_declared_prefix (phone n : string) (t : TelcoProvider) :
  normalizePhone phone None = Ok n ->
  (getTelco phone = Some t <->
   exists p, In p (prefixes (TELCO_DATA t))
             /\ JS.startsWith p ("0" ++ JS.slice_from 4 n) = true).
Proof.
  intros Hn. rewrite (getTelco_probes phone n Hn).
  destruct (normalizePhone_canonical phone n Hn) as (d & -> & Hl & Hd).
  change (JS.slice_from 4 ("+234" ++ d)) with d. fold (probe d). split.
  - apply probe_sound.
  - intros (p & Hin & Hs). exact (probe_complete d p t Hl Hd Hin Hs).
Qed.

Lemma getTelco_iff_declared_prefix_witness :
  getTelco "+234 809 123 4567" = Some NINE_MOBILE.
Proof.
  apply (proj2 (getTelco_iff_declared_prefix
                  "+234 809 123 4567" "+2348091234567" NINE_MOBILE eq_refl)).
  exists "0809". split; [simpl; tauto | reflexivity].
Defined.

(** X14: every successful result of [normalizePhone], in any format, is
    itself a valid number with the same provider and the same parts as the
    original input. *)
Theorem renderings_share_provider_and_parts
    (phone r : string) (f : option PhoneFormat) :
  normalizePhone phone f = Ok r ->
  isValidNigerianNumber r = true
  /\ getTelco r = getTelco phone
  /\ splitPhoneParts r = splitPhoneParts phone.
Proof.
  intros Hr. pose proof (renormalize phone r f None Hr) as Hsame.
  rewrite isValidNigerianNumber_is_ok. unfold getTelco, splitPhoneParts.
  rewrite Hsame.
  destruct (normalizePhone_ok_inv phone r f Hr) as (d & -> & _).
  repeat split.
Qed.

Lemma renderings_share_provider_and_parts_witness :
  isValidNigerianNumber "08051234567" = true
  /\ getTelco "08051234567" = getTelco "234-805-123-4567"
  /\ splitPhoneParts "08051234567" = splitPhoneParts "234-805-123-4567".
Proof.
  apply (renderings_share_provider_and_parts
           "234-805-123-4567" "08051234567" (Some local)).
  reflexivity.
Defined.

(** X15: [splitPhoneParts] throws exactly the error [normalizePhone]
    throws; when the input normalises, its [telco] is what [getTelco]
    returns, its [prefix] is a prefix declared by that provider and found
    at the head of [0] followed by [number], and [prefix] is empty when no
    provider is detected. *)
Theorem splitPhoneParts_agrees_with_getTelco (phone : string) :
  (forall e, normalizePhone phone None = Throw e ->
             splitPhoneParts phone = Throw e)
  /\ (forall n, normalizePhone phone None = Ok n ->
        exists parts,
          splitPhoneParts phone = Ok parts
          /\ parts_telco parts = getTelco phone
          /\ parts_number parts = JS.slice_from 4 n
          /\ match parts_telco parts with
             | Some t =>
                 In (parts_prefix parts) (prefixes (TELCO_DATA t))
                 /\ JS.startsWith (parts_prefix parts)
                                  ("0" ++ parts_number parts) = true
             | None => parts_prefix parts = ""
             end).
Proof.
  split.
  - intros e He. unfold splitPhoneParts. now rewrite He.
  - apply splitPhoneParts_ok.
Qed.

Lemma splitPhoneParts_agrees_with_getTelco_witness :
  splitPhoneParts "0800" = Throw (InvalidLength "0800").
Proof.
  apply (proj1 (splitPhoneParts_agrees_with_getTelco "0800")).
  reflexivity.
Defined.

(* ================================================================= *)
(** ** validationSchemas *)

Section Schemas.

Lemma declared_prefix_shape (t : TelcoProvider) (p : string) :
  In p (prefixes (TELCO_DATA t)) ->
  exists a b q,
    p = String "0" (String a (String b q))
    /\ validationSchemas.in_789 a = true
    /\ validationSchemas.in_01 b = true
    /\ validationSchemas.prefix_pattern p = true.
Proof.
  destruct t; simpl; intros Hin;
    repeat (destruct Hin as [<-|Hin];
            [do 3 eexists; repeat split; reflexivity|]);
    contradiction.
Qed.

(** The ten digits of a number with a detected provider. *)
Lemma detected_subscriber (d : string) (t : TelcoProvider) :
  String.length d = 10 -> JS.all_digits d = true ->
  probe d = Some t -> validationSchemas.subscriber d = true.
Proof.
  intros Hl Hd (p & Hin & Hs)%probe_sound.
  destruct (declared_prefix_shape t p Hin) as (a & b & q & -> & Ha & Hb & _).
  apply startsWith_split in Hs.
  set (rest := JS.slice_from _ _) in Hs. clearbody rest.
  change (String "0" d = String "0" (String a (String b (q ++ rest)))) in Hs.
  injection Hs as ->.
  simpl in Hl, Hd. injection Hl as Hl.
  apply andb_prop in Hd as [_ [_ Hd]%andb_prop].
  unfold validationSchemas.subscriber. rewrite Ha, Hb, Hl, Hd. reflexivity.
Qed.

Lemma phone_pattern_head (head d : string) :
  In head ["+234"; "234"; "0"; ""] ->
  validationSchemas.subscriber d = true ->
  validationSchemas.phone_pattern (head ++ d) = true.
Proof.
  intros Hin Hsub. unfold validationSchemas.phone_pattern.
  apply existsb_exists. exists head. split; [exact Hin|].
  now rewrite startsWith_app, slice_from_app, Hsub.
Qed.

End Schemas.

(** X16: every declared prefix matches [validationSchemas.prefix.pattern],
    and every number for which [getTelco] finds a provider matches
    [validationSchemas.phone.pattern] in each of its spellings: canonical,
    local, with the bare country code, and as the ten digits alone. *)
Theorem validationSchemas_accept_detected :
  (forall (t : TelcoProvider) (p : string),
      In p (prefixes (TELCO_DATA t)) ->
      validationSchemas.prefix_pattern p = true)
  /\ (forall (phone n : string) (t : TelcoProvider),
      normalizePhone phone None = Ok n -> getTelco phone = Some t ->
      validationSchemas.phone_pattern n = true
      /\ validationSchemas.phone_pattern (convert local n) = true
      /\ validationSchemas.phone_pattern (JS.slice_from 1 n) = true
      /\ validationSchemas.phone_pattern (JS.slice_from 4 n) = true).
Proof.
  split.
  - intros t p Hin.
    now destruct (declared_prefix_shape t p Hin) as (a & b & q & _ & _ & _ & Hp).
  - intros phone n t Hn Ht.
    rewrite (getTelco_probes phone n Hn) in Ht.
    destruct (normalizePhone_canonical phone n Hn) as (d & -> & Hl & Hd).
    change (JS.slice_from 4 ("+234" ++ d)) with d in *. fold (probe d) in Ht.
    pose proof (detected_subscriber d t Hl Hd Ht) as Hsub.
    repeat split.
    + apply (phone_pattern_head "+234" d); simpl; tauto.
    + apply (phone_pattern_head "0" d); simpl; tauto.
    + apply (phone_pattern_head "234" d); simpl; tauto.
    + apply (phone_pattern_head "" d); simpl; tauto.
Qed.

Lemma validationSchemas_accept_detected_witness :
  validationSchemas.phone_pattern "+2348031234567" = true
  /\ validationSchemas.phone_pattern (convert local "+2348031234567") = true
  /\ validationSchemas.phone_pattern (JS.slice_from 1 "+2348031234567") = true
  /\ validationSchemas.phone_pattern (JS.slice_from 4 "+2348031234567") = true.
Proof.
  apply (proj2 validationSchemas_accept_detected
           "0803 123 4567" "+2348031234567" MTN); reflexivity.
Defined.

(* ================================================================= *)
(** ** getPhoneInfo on valid numbers, and its cache *)

Section InfoMore.

Implicit Types (st : LRU.LRUCache string PhoneInfo).

Lemma getPhoneInfo_fresh_valid (phone n : string) :
  normalizePhone phone None = Ok n ->
  exists parts,
    splitPhoneParts phone = Ok parts
    /\ getPhoneInfo_fresh phone
       = {| original := phone; normalized := n; telco := getTelco phone;
            isValid := true;
            format := if JS.char_is (JS.char0 phone) "+" then international
                      else if JS.char_is (JS.char0 phone) "0" then local
                      else e164;
            prefix := parts_prefix parts;
            number := JS.slice_from 4 n |}.
Proof.
  intros Hn.
  destruct (splitPhoneParts_ok phone n Hn) as (parts & Hs & _ & Hnum & _).
  exists parts. split; [exact Hs|].
  unfold getPhoneInfo_fresh, getPhoneInfo_try.
  rewrite Hn. unfold bind at 1. rewrite Hs. unfold bind.
  now rewrite Hnum.
Qed.

Lemma getPhoneInfo_fresh_isValid (phone : string) :
  isValid (getPhoneInfo_fresh phone) = isValidNigerianNumber phone
  /\ original (getPhoneInfo_fresh phone) = phone.
Proof.
  rewrite isValidNigerianNumber_is_ok.
  destruct (normalizePhone phone None) as [n|e] eqn:Hn.
  - destruct (getPhoneInfo_fresh_valid phone n Hn) as (parts & _ & ->).
    split; reflexivity.
  - rewrite (getPhoneInfo_fresh_failure phone e Hn). split; reflexivity.
Qed.

Lemma has_snoc {K V : Type} `{KeyEq K} (k : K) (v : V) (m : list (K * V)) :
  JSMap.has k (m ++ [(k, v)])%list = true.
Proof.
  induction m as [|[k0 v0] m IH]; simpl.
  - now rewrite keq_refl.
  - rewrite IH. apply orb_true_r.
Qed.

(** A [get] right after the entry of [phone] was written at the end. *)
Lemma get_hit_at_end (phone : string) (info : PhoneInfo)
    (m : list (string * PhoneInfo)) (maxSize : Z) :
  JSMap.has phone m = false ->
  fst (getPhoneInfo phone (LRU.mk (m ++ [(phone, info)])%list maxSize)) = info.
Proof.
  intros Hm. unfold getPhoneInfo, LRU.get. cbn [LRU.cache].
  now rewrite has_snoc, (get_snoc_absent phone info m Hm).
Qed.

Lemma getPhoneInfo_state (phone : string) st :
  exists m, snd (getPhoneInfo phone st)
            = LRU.mk (m ++ [(phone, fst (getPhoneInfo phone st))])%list
                     (LRU.maxSize st)
            /\ JSMap.has phone m = false.
Proof.
  unfold getPhoneInfo, LRU.get.
  destruct (JSMap.has phone (LRU.cache st)) eqn:Hh.
  - destruct (proj1 (has_get phone (LRU.cache st)) Hh) as [info Hg].
    rewrite Hg. cbn [fst snd].
    exists (JSMap.delete phone (LRU.cache st)).
    rewrite set_absent by apply has_delete_same.
    split; [reflexivity | apply has_delete_same].
  - cbn [fst snd]. rewrite set_appends.
    exists (set_target phone st). split; [reflexivity|].
    apply set_target_absent.
Qed.

Lemma getPhoneInfo_size (phone : string) st :
  (1 <= LRU.maxSize st)%Z ->
  (Z.of_nat (LRU.size st) <= LRU.maxSize st)%Z ->
  LRU.maxSize (snd (getPhoneInfo phone st)) = LRU.maxSize st
  /\ (Z.of_nat (LRU.size (snd (getPhoneInfo phone st))) <= LRU.maxSize st)%Z.
Proof.
  intros Hmax Hinv.
  pose proof (size_get phone st) as Hget.
  pose proof (maxSize_step st (LRU.Get phone)) as Hm. simpl in Hm.
  unfold getPhoneInfo.
  destruct (LRU.get phone st) as [[info|] st1]; cbn [fst snd] in *.
  - split; [exact Hm | lia].
  - split; [exact Hm|].
    rewrite <- Hm. apply size_set; [reflexivity | rewrite Hm; lia ..].
Qed.

End InfoMore.

(** X17: when the input normalises to [n], [getPhoneInfo] returns, from
    every reachable state of the cache, the record with the input as
    [original], [normalized = n], [telco] as [getTelco] gives it,
    [isValid = true], [format] read off the first character of the raw
    input ([+]: international, [0]: local, anything else: e164), [prefix]
    as [splitPhoneParts] gives it and [number] the ten digits after [+234]. *)
Theorem getPhoneInfo_valid_record (calls : list call) (phone n : string) :
  normalizePhone phone None = Ok n ->
  exists parts,
    splitPhoneParts phone = Ok parts
    /\ fst (getPhoneInfo phone (cache_after calls))
       = {| original := phone; normalized := n; telco := getTelco phone;
            isValid := true;
            format := if JS.char_is (JS.char0 phone) "+" then international
                      else if JS.char_is (JS.char0 phone) "0" then local
                      else e164;
            prefix := parts_prefix parts;
            number := JS.slice_from 4 n |}.
Proof.
  intros Hn.
  rewrite (getPhoneInfo_result phone _ (cache_after_consistent calls)).
  exact (getPhoneInfo_fresh_valid phone n Hn).
Qed.

Lemma getPhoneInfo_valid_record_witness :
  exists parts,
    splitPhoneParts "2348031234567" = Ok parts
    /\ fst (getPhoneInfo "2348031234567"
              (cache_after [CallGetPhoneInfo "2348031234567"; CallClearCaches]))
       = {| original := "2348031234567"; normalized := "+2348031234567";
            telco := getTelco "2348031234567"; isValid := true;
            format := e164;
            prefix := parts_prefix parts;
            number := JS.slice_from 4 "+2348031234567" |}.
Proof.
  apply (getPhoneInfo_valid_record
           [CallGetPhoneInfo "2348031234567"; CallClearCaches]
           "2348031234567" "+2348031234567").
  reflexivity.
Defined.

(** X18: from every reachable state of the cache, the [isValid] flag of
    [getPhoneInfo(phone)] is [isValidNigerianNumber(phone)], and [original]
    is the input. *)
Theorem getPhoneInfo_isValid (calls : list call) (phone : string) :
  isValid (fst (getPhoneInfo phone (cache_after calls)))
  = isValidNigerianNumber phone
  /\ original (fst (getPhoneInfo phone (cache_after calls))) = phone.
Proof.
  rewrite (getPhoneInfo_result phone _ (cache_after_consistent calls)).
  apply getPhoneInfo_fresh_isValid.
Qed.

(** X19: after [getPhoneInfo(phone)], from any state of the cache, the
    cache holds [phone], and a second call returns the record the first
    call returned. *)
Theorem getPhoneInfo_repeat (phone : string) (st : LRU.LRUCache string PhoneInfo) :
  LRU.has phone (snd (getPhoneInfo phone st)) = true
  /\ fst (getPhoneInfo phone (snd (getPhoneInfo phone st)))
     = fst (getPhoneInfo phone st).
Proof.
  destruct (getPhoneInfo_state phone st) as (m & -> & Hm). split.
  - unfold LRU.has. cbn [LRU.cache]. apply has_snoc.
  - now apply get_hit_at_end.
Qed.

(** X20: after every sequence of [getPhoneInfo] and [clearCaches] calls the
    cache holds at most 1000 entries. *)
Theorem phoneInfoCache_at_most_1000 (calls : list call) :
  LRU.maxSize (cache_after calls) = 1000%Z
  /\ LRU.size (cache_after calls) <= 1000.
Proof.
  induction calls as [|[phone|] calls [IHm IHs]]; simpl.
  - split; [reflexivity | unfold LRU.size; simpl; lia].
  - destruct (getPhoneInfo_size phone (cache_after calls)) as [Hm Hs]; lia.
  - split; [exact IHm | unfold LRU.size; simpl; lia].
Qed.

(* ================================================================= *)
(** ** LRUCache: lookups, removals and sizes *)

Section CacheLaws.
Context {K V : Type} `{KeyEq K}.

Implicit Types (c : LRU.LRUCache K V) (m : list (K * V)).

Lemma get_delete_other (k' key : K) m :
  k' <> key -> JSMap.get k' (JSMap.delete key m) = JSMap.get k' m.
Proof.
  intros Hne. unfold JSMap.delete.
  induction m as [|[k v] m IH]; simpl; [reflexivity|].
  destruct (keq_spec key k) as [<-|Hk]; simpl.
  - destruct (keq_spec k' key); [contradiction | exact IH].
  - destruct (keq k' k); [reflexivity | exact IH].
Qed.

Lemma get_snoc_other (k' key : K) (value : V) m :
  k' <> key -> JSMap.get k' (m ++ [(key, value)])%list = JSMap.get k' m.
Proof.
  intros Hne. induction m as [|[k v] m IH]; simpl.
  - destruct (keq_spec k' key); [contradiction | reflexivity].
  - destruct (keq k' k); [reflexivity | exact IH].
Qed.

Lemma delete_snoc_absent (key : K) (value : V) m :
  JSMap.has key m = false ->
  JSMap.delete key (m ++ [(key, value)])%list = m.
Proof.
  intros Hm. unfold JSMap.delete. rewrite filter_app. simpl.
  rewrite keq_refl. simpl. rewrite app_nil_r.
  exact (delete_absent key m Hm).
Qed.

Lemma increasing_NoDup {A : Type} (g : A -> nat) (l : list A) :
  increasing g l -> NoDup l.
Proof.
  induction l as [|a l IH]; intros Hs; constructor.
  - exact (increasing_head_not_in_tail g a l Hs).
  - apply IH. now apply StronglySorted_inv in Hs.
Qed.

Lemma size_delete_exact (key : K) m :
  NoDup (JSMap.keys m) -> JSMap.has key m = true ->
  S (JSMap.size (JSMap.delete key m)) = JSMap.size m.
Proof.
  unfold JSMap.size.
  induction m as [|[k v] m IH]; simpl; [discriminate|].
  intros Hnd Hh. inversion Hnd as [|? ? Hnin Hnd']; subst.
  unfold JSMap.delete. simpl.
  destruct (keq_spec key k) as [->|Hk]; simpl.
  - f_equal. fold (JSMap.delete k m).
    now rewrite delete_absent by now apply has_false_not_In.
  - f_equal. apply IH; assumption.
Qed.

Lemma run_keys_NoDup (maxSize : Z) (history : list (LRU.op K V)) :
  NoDup (JSMap.keys (LRU.cache (LRU.run maxSize history))).
Proof.
  exact (increasing_NoDup _ _ (keys_in_order_of_last_use maxSize history)).
Qed.

End CacheLaws.

(** X21: for a key type without the value [undefined] (such as string) and
    a maximum size that is an integer of at least 1, the entry count never
    exceeds the maximum size, after any sequence of get, set, has, delete
    and clear. *)
Theorem lru_size_within_positive_capacity {K V : Type} `{KeyEq K}
    (maxSize : Z) (history : list (LRU.op K V)) :
  (forall k : K, is_undefined k = false) ->
  (1 <= maxSize)%Z ->
  (Z.of_nat (LRU.size (LRU.run maxSize history)) <= maxSize)%Z.
Proof. apply size_bounded_from_capacity_one. Qed.

Lemma lru_size_within_positive_capacity_witness :
  (Z.of_nat (LRU.size (LRU.run 1
      [LRU.Set_ "08051234567" 2%nat; LRU.Get "08031234567";
       LRU.Set_ "08031234567" 1%nat])) <= 1)%Z.
Proof.
  apply (lru_size_within_positive_capacity 1
           [LRU.Set_ "08051234567" 2; LRU.Get "08031234567";
            LRU.Set_ "08031234567" 1]).
  - reflexivity.
  - lia.
Defined.

(** X22: right after [set(key, value)], whatever the cache held and
    whatever its capacity, [has(key)] is true, [get(key)] returns [value],
    and that [get] leaves the cache as it is (the key is already the most
    recently used). *)
Theorem lru_get_after_set {K V : Type} `{KeyEq K}
    (key : K) (value : V) (c : LRU.LRUCache K V) :
  LRU.has key (LRU.set key value c) = true
  /\ LRU.get key (LRU.set key value c) = (Some value, LRU.set key value c).
Proof.
  rewrite set_appends. pose proof (set_target_absent key c) as Habs.
  split.
  - unfold LRU.has. cbn [LRU.cache]. apply has_snoc.
  - unfold LRU.get. cbn [LRU.cache LRU.maxSize].
    rewrite has_snoc, (get_snoc_absent key value _ Habs).
    rewrite (delete_snoc_absent key value _ Habs).
    now rewrite (set_absent key value _ Habs).
Qed.

(** X23: [set(key, value)] leaves the value of every other key [k'] as it
    was, unless [k'] is the entry it evicts: the first key of the map, when
    [key] is new and the cache is full. *)
Theorem lru_set_keeps_other_entries {K V : Type} `{KeyEq K}
    (key k' : K) (value : V) (c : LRU.LRUCache K V) :
  k' <> key ->
  JSMap.first_key (LRU.cache c) <> Some k'
  \/ LRU.has key c = true
  \/ (Z.of_nat (LRU.size c) < LRU.maxSize c)%Z ->
  JSMap.get k' (LRU.cache (LRU.set key value c)) = JSMap.get k' (LRU.cache c).
Proof.
  intros Hne Hkeep. rewrite set_appends. cbn [LRU.cache].
  rewrite (get_snoc_other k' key value _ Hne).
  unfold set_target, LRU.has, LRU.size in *.
  destruct (JSMap.has key (LRU.cache c)); [now apply get_delete_other|].
  destruct (Z.leb_spec (LRU.maxSize c) (Z.of_nat (JSMap.size (LRU.cache c))));
    [|reflexivity].
  destruct (JSMap.first_key (LRU.cache c)) as [firstKey|]; [|reflexivity].
  destruct (is_undefined firstKey); [reflexivity|].
  apply get_delete_other. intros ->.
  destruct Hkeep as [Hk|[Hk|Hk]]; [congruence | discriminate | lia].
Qed.

Lemma lru_set_keeps_other_entries_witness :
  JSMap.get "08051234567"
    (LRU.cache (LRU.set "08021234567" 3
       (LRU.run 2 [LRU.Set_ "08051234567" 2; LRU.Set_ "08031234567" 1])))
  = JSMap.get "08051234567"
      (LRU.cache (LRU.run 2 [LRU.Set_ "08051234567" 2; LRU.Set_ "08031234567" 1])).
Proof.
  apply (lru_set_keeps_other_entries "08021234567" "08051234567" 3
           (LRU.run 2 [LRU.Set_ "08051234567" 2; LRU.Set_ "08031234567" 1])).
  - discriminate.
  - left. discriminate.
Defined.

(** X24: [delete(key)] returns whether the key was present, leaves the
    cache without the key, keeps the values and the order of all other
    keys, and changes nothing when the key was absent. *)
Theorem lru_delete_spec {K V : Type} `{KeyEq K}
    (key : K) (c : LRU.LRUCache K V) :
  let c' := snd (LRU.delete key c) in
  fst (LRU.delete key c) = LRU.has key c
  /\ LRU.has key c' = false
  /\ (forall k', k' <> key ->
        JSMap.get k' (LRU.cache c') = JSMap.get k' (LRU.cache c))
  /\ JSMap.keys (LRU.cache c')
     = filter (fun k => negb (keq key k)) (JSMap.keys (LRU.cache c))
  /\ (LRU.has key c = false -> c' = c).
Proof.
  unfold LRU.delete, LRU.has. cbn [fst snd LRU.cache].
  split; [reflexivity|]. split; [apply has_delete_same|].
  split; [intros k' Hne; now apply get_delete_other|].
  split; [apply keys_delete|].
  intros Hh. rewrite (delete_absent key _ Hh). now destruct c.
Qed.

Lemma lru_delete_spec_witness :
  JSMap.get "08051234567"
    (LRU.cache (snd (LRU.delete "08031234567"
       (LRU.run 2 [LRU.Set_ "08051234567" 2; LRU.Set_ "08031234567" 1]))))
  = JSMap.get "08051234567"
      (LRU.cache (LRU.run 2 [LRU.Set_ "08051234567" 2; LRU.Set_ "08031234567" 1])).
Proof.
  apply (proj1 (proj2 (proj2 (lru_delete_spec "08031234567"
           (LRU.run 2 [LRU.Set_ "08051234567" 2; LRU.Set_ "08031234567" 1]))))
           "08051234567").
  discriminate.
Defined.

(** X25: for a key type without the value [undefined] (such as string) and
    a maximum size that is an integer of at least 1, after any sequence of
    requests, [set] leaves the entry count unchanged when the key is
    present and when the cache is full (one entry goes, one comes), and
    raises it by one otherwise. *)
Theorem lru_set_size {K V : Type} `{KeyEq K}
    (maxSize : Z) (history : list (LRU.op K V)) (key : K) (value : V) :
  (forall k : K, is_undefined k = false) ->
  (1 <= maxSize)%Z ->
  let c := LRU.run maxSize history in
  LRU.size (LRU.set key value c) =
    if LRU.has key c then LRU.size c
    else if (maxSize <=? Z.of_nat (LRU.size c))%Z then LRU.size c
    else S (LRU.size c).
Proof.
  intros Hdef Hmax c.
  pose proof (run_keys_NoDup maxSize history) as Hnd. fold c in Hnd.
  pose proof (maxSize_run maxSize history) as Hm. fold c in Hm.
  rewrite set_appends. unfold LRU.size, LRU.has, set_target, JSMap.size.
  cbn [LRU.cache]. rewrite List.length_app, Hm. simpl List.length.
  destruct (JSMap.has key (LRU.cache c)) eqn:Hh.
  - pose proof (size_delete_exact key _ Hnd Hh) as He.
    unfold JSMap.size in He. lia.
  - fold (JSMap.size (LRU.cache c)).
    destruct (Z.leb_spec maxSize (Z.of_nat (JSMap.size (LRU.cache c))));
      [|unfold JSMap.size; lia].
    destruct (JSMap.first_key (LRU.cache c)) as [firstKey|] eqn:Hf.
    + rewrite (Hdef firstKey).
      pose proof (size_delete_exact firstKey _ Hnd
                    (first_key_has firstKey _ Hf)) as He.
      unfold JSMap.size in *. lia.
    + apply first_key_none in Hf. rewrite Hf in *. simpl in *. lia.
Qed.

Lemma lru_set_size_witness :
  LRU.size (LRU.set "08021234567" 3
    (LRU.run 2 [LRU.Set_ "08051234567" 2; LRU.Set_ "08031234567" 1])) = 2.
Proof.
  assert (Hmax : (1 <= 2)%Z) by lia.
  assert (Hdef : forall k : string, is_undefined k = false) by reflexivity.
  exact (lru_set_size 2 [LRU.Set_ "08051234567" 2; LRU.Set_ "08031234567" 1]
           "08021234567" 3 Hdef Hmax).
Defined.

(* ================================================================= *)
(** ** Random numbers without a provider constraint *)

Section RandomMore.

(** The number built for the chosen provider [t]: prefix drawn second,
    digits drawn from the third outcome on. *)
Lemma generated_for_provider (t : TelcoProvider) (r : RandomSource) :
  let ps := prefixes (TELCO_DATA t) in
  let p := nth (r 1 mod List.length ps) ps "" in
  let number := fst (random_digits (11 - String.length p) (fun i => r (S (S i)))) in
  exists d, normalizePhone (p ++ number) None = Ok ("+234" ++ d)
            /\ String.length d = 10 /\ JS.all_digits d = true
            /\ probe d = Some t.
Proof.
  intros ps p number.
  assert (Hin : In p ps).
  { apply nth_In. apply Nat.mod_upper_bound. subst ps. now destruct t. }
  destruct (random_digits_spec (11 - String.length p) (fun i => r (S (S i))))
    as [Hl Hd].
  fold number in Hl, Hd.
  destruct (declared_prefix_probe t p number Hin Hl Hd)
    as (d & Hpd & Hld & Hdd & Hprobe).
  exists d. rewrite Hpd.
  split; [exact (normalizePhone_local_input d None Hld Hdd) | auto].
Qed.

End RandomMore.

(** X26: with or without a provider argument, and for every outcome of the
    random choices, [generateRandomPhone] returns a string in E.164 form
    that [isValidNigerianNumber] accepts and for which [getTelco] finds a
    provider: the one requested, when one was. *)
Theorem generateRandomPhone_always_valid
    (telco : option TelcoProvider) (r : RandomSource) :
  exists s t,
    fst (generateRandomPhone telco r) = Ok s
    /\ isNormalizedPhone s = true
    /\ isValidNigerianNumber s = true
    /\ getTelco s = Some t
    /\ match telco with Some requested => t = requested | None => True end.
Proof.
  unfold generateRandomPhone, random_below, getTelcoInfo.
  set (providers := match telco with
                    | Some t => [t]
                    | None => [MTN; GLO; AIRTEL; NINE_MOBILE]
                    end).
  set (t := nth (r 0 mod List.length providers) providers MTN).
  destruct (generated_for_provider t r) as (d & Hn & Hl & Hd & Hp).
  destruct (random_digits _ (fun i => r (S (S i)))) as [number r3].
  cbn [fst] in *.
  exists ("+234" ++ d), t. split; [exact Hn|]. split.
  { exact (literal_then_10_digits_intro "+234" d Hl Hd). }
  split.
  { rewrite isValidNigerianNumber_is_ok.
    now rewrite (normalizePhone_canonical_input d None Hl Hd). }
  split.
  { now rewrite getTelco_canonical_input. }
  destruct telco as [requested|]; [|exact I].
  subst t providers. cbn [List.length]. now rewrite Nat.mod_1_r.
Qed.

(* ================================================================= *)
(** ** What the caches hold *)

(** X27: after every sequence of [getPhoneInfo] and [clearCaches] calls,
    each entry of the cache is the record [getPhoneInfo] computes for its
    key: its [original] is the key and its [isValid] flag is
    [isValidNigerianNumber] of the key. *)
Theorem phoneInfoCache_entries_correct
    (calls : list call) (key : string) (info : PhoneInfo) :
  JSMap.get key (LRU.cache (cache_after calls)) = Some info ->
  info = getPhoneInfo_fresh key
  /\ original info = key
  /\ isValid info = isValidNigerianNumber key.
Proof.
  intros Hg%get_In.
  apply (cache_after_consistent calls) in Hg. subst info.
  destruct (getPhoneInfo_fresh_isValid key) as [Hv Ho]. auto.
Qed.

Lemma phoneInfoCache_entries_correct_witness :
  getPhoneInfo_fresh "123" = getPhoneInfo_fresh "123"
  /\ original (getPhoneInfo_fresh "123") = "123"
  /\ isValid (getPhoneInfo_fresh "123") = isValidNigerianNumber "123".
Proof.
  apply (phoneInfoCache_entries_correct
           [CallGetPhoneInfo "08031234567"; CallGetPhoneInfo "123"]
           "123" (getPhoneInfo_fresh "123")).
  reflexivity.
Defined.

(** X28: [get] never changes what the cache maps: it returns the stored
    value of the key (nothing when the key is absent), and afterwards every
    key has the value it had before; only the order of the entries can
    change. *)
Theorem lru_get_preserves_contents {K V : Type} `{KeyEq K}
    (key : K) (c : LRU.LRUCache K V) :
  fst (LRU.get key c) = JSMap.get key (LRU.cache c)
  /\ (forall k', JSMap.get k' (LRU.cache (snd (LRU.get key c)))
                 = JSMap.get k' (LRU.cache c))
  /\ (LRU.has key c = false -> LRU.get key c = (None, c)).
Proof.
  unfold LRU.has.
  destruct (JSMap.has key (LRU.cache c)) eqn:Hh.
  - destruct (proj1 (has_get key (LRU.cache c)) Hh) as [value Hg].
    rewrite (get_present key value c Hg). cbn [fst snd LRU.cache].
    split; [now rewrite Hg|]. split; [|discriminate].
    intros k'. destruct (keq_spec k' key) as [->|Hne].
    + rewrite Hg. apply get_snoc_absent, has_delete_same.
    + now rewrite get_snoc_other, get_delete_other.
  - rewrite (get_absent key c Hh). cbn [fst snd].
    split; [|split; auto].
    symmetry. now apply has_false_get_none.
Qed.

Lemma lru_get_preserves_contents_witness :
  LRU.get "08021234567"
    (LRU.run 2 [LRU.Set_ "08051234567" 2; LRU.Set_ "08031234567" 1])
  = (None, LRU.run 2 [LRU.Set_ "08051234567" 2; LRU.Set_ "08031234567" 1]).
Proof.
  apply (proj2 (proj2 (lru_get_preserves_contents "08021234567"
           (LRU.run 2 [LRU.Set_ "08051234567" 2; LRU.Set_ "08031234567" 1])))).
  reflexivity.
Defined.

(* ================================================================= *)
(** ** The leading-zero branch *)

(** C7: for every input whose cleaned string starts with [0] and has a
    length in [10, 14]: if the cleaned length is exactly 11, the canonical
    form, that is the value the first [switch] gives [normalized], is
    [+234] followed by the ten characters after the leading [0]; if the
    cleaned length is exactly 10, [normalizePhone] fails with
    InvalidLocalNumber; for any other cleaned length it fails with
    InvalidLength.  At length 11 the canonical form then goes through the
    final pattern check, which decides the result of the call. *)
Theorem leading_zero_canonical_form (phone : string) (format : option PhoneFormat) :
  let cleaned := PATTERNS.replace_CLEANUP phone in
  JS.char0 cleaned = Some "0"%char ->
  10 <= String.length cleaned <= 14 ->
  (String.length cleaned = 11 ->
     let canonical := "+234" ++ JS.slice_from 1 cleaned in
     canonicalize phone cleaned = Ok canonical
     /\ normalizePhone phone format =
          if PATTERNS.E164_VALIDATION canonical
          then Ok (convert (target format) canonical)
          else Throw (InvalidNigerianNumber phone))
  /\ (String.length cleaned = 10 ->
      normalizePhone phone format = Throw (InvalidLocalNumber phone))
  /\ (String.length cleaned <> 11 -> String.length cleaned <> 10 ->
      normalizePhone phone format = Throw (InvalidLength phone)).
Proof.
  intros cleaned H0 Hlen.
  assert (Hne : String.length phone <> 0).
  { apply replace_CLEANUP_nonempty. fold cleaned.
    apply char0_nonempty in H0 as [r ->]. discriminate. }
  rewrite (normalizePhone_format phone format).
  rewrite (normalizePhone_in_range phone Hne Hlen). fold cleaned.
  apply char0_nonempty in H0 as [r Hr]. rewrite Hr.
  rewrite canonicalize_zero. simpl String.length. simpl JS.slice_from.
  split; [|split].
  - intros [= Hl]. rewrite Hl. simpl Nat.eqb. cbv iota zeta.
    split; [reflexivity|]. unfold bind.
    destruct (PATTERNS.E164_VALIDATION ("+234" ++ r)); reflexivity.
  - intros [= Hl]. rewrite Hl. reflexivity.
  - intros H11 H10.
    destruct (Nat.eqb_spec (String.length r) 10); [lia|].
    destruct (Nat.eqb_spec (String.length r) 9); [lia|]. reflexivity.
Qed.

Lemma leading_zero_canonical_form_witness :
  let phone := "0803123456+" in
  let cleaned := PATTERNS.replace_CLEANUP phone in
  let canonical := "+234" ++ JS.slice_from 1 cleaned in
  canonicalize phone cleaned = Ok canonical
  /\ normalizePhone phone None =
       if PATTERNS.E164_VALIDATION canonical
       then Ok (convert (target None) canonical)
       else Throw (InvalidNigerianNumber phone).
Proof.
  refine (proj1 (leading_zero_canonical_form "0803123456+" None _ _) _).
  - reflexivity.
  - simpl. lia.
  - reflexivity.
Defined.
